(** * Live-session signalling relay of the Digi_Kul teachers portal

    A shallow embedding of the in-memory signalling core of [src/app.py]:
    the three module-level dictionaries [active_sessions],
    [session_participants] and [online_users], the deferred
    [cleanup_session] timer, the HTTP route [start_live_session] and the
    Socket.IO handlers [join_session], [leave_session], [webrtc_offer],
    [webrtc_answer], [ice_candidate] and [chat_message].

    Modelling choices.
    - The outer dictionaries are finite maps keyed by strings.  The inner
      dictionary [session_participants[sid]] is kept as an
      insertion-ordered association list, because the handler sends
      [list(d.values())] to the client and Python dictionaries iterate in
      insertion order.
    - Identifier fields of an inbound payload ([session_id], [user_id],
      [target_user_id], [from_user_id]) are JSON strings or absent:
      [option string], with [None] for a missing key or [null].  Python
      truthiness of such a value is [truthy].
    - [datetime.now().isoformat()] and [uuid.uuid4().hex] are inputs of the
      event that reads them.
    - A handler is a function from the state before to the state after
      together with the list of [emit] calls it made, in program order.
      Handlers run one at a time.
    - [threading.Timer(5.0, f).start()] appends a pending timer to the state;
      a timer fires at some later point of the trace chosen by the
      environment ([EvTimer]). *)

From stdpp Require Import gmap strings list fin_maps.
From Stdlib Require Import QArith.
Close Scope Q_scope.
Open Scope string_scope.

(** ** Python values carried by payloads *)

#[local] Unset Elimination Schemes.
Inductive pyval : Type :=
| PNone
| PInt (n : Z)
| PStr (s : string)
| PList (l : list pyval)
| PDict (l : list (string * pyval)).
#[local] Set Elimination Schemes.

(** [x.get(k)] on an identifier field: [None] becomes Python's [None]. *)
Definition opt_py (o : option string) : pyval :=
  match o with
  | Some s => PStr s
  | None => PNone
  end.

(** Python truthiness of a string-or-None value: [None] and [''] are false. *)
Definition truthy (o : option string) : bool :=
  match o with
  | Some s => negb (String.eqb s "")
  | None => false
  end.

(** [a or b] on string-or-None values. *)
Definition py_or (a b : option string) : option string :=
  if truthy a then a else b.

(** ** Insertion-ordered dictionaries with string keys *)

Module PyDict.
Section ops.
Context {V : Type}.

(** [d.get(k)] *)
Fixpoint get (k : string) (d : list (string * V)) : option V :=
  match d with
  | [] => None
  | (k', v) :: r => if String.eqb k k' then Some v else get k r
  end.

(** [k in d] *)
Definition mem (k : string) (d : list (string * V)) : bool :=
  match get k d with
  | Some _ => true
  | None => false
  end.

(** [d[k] = v]: an existing key keeps its position, a new key goes last. *)
Fixpoint set (k : string) (v : V) (d : list (string * V)) : list (string * V) :=
  match d with
  | [] => [(k, v)]
  | (k', v') :: r =>
      if String.eqb k k' then (k, v) :: r else (k', v') :: set k v r
  end.

(** [del d[k]]; the handler tests [k in d] first, so the [KeyError] of an
    absent key is never raised. *)
Fixpoint del (k : string) (d : list (string * V)) : list (string * V) :=
  match d with
  | [] => []
  | (k', v') :: r =>
      if String.eqb k k' then r else (k', v') :: del k r
  end.

(** [len(d)] *)
Definition len (d : list (string * V)) : nat := length d.

(** [list(d.keys())] and [list(d.values())] *)
Definition keys (d : list (string * V)) : list string := map fst d.
Definition values (d : list (string * V)) : list V := map snd d.

End ops.
End PyDict.

(** ** Data model *)

(** A value of [active_sessions] (lines 804-813). *)
Record Session := mkSession {
  lecture_id : string;
  teacher_id : string;
  teacher_name : string;
  lecture_title : string;
  started_at : string;
  status : string;
  participants : list pyval;
  recordings : list pyval
}.

(** A value of [session_participants[sid]] (lines 1119-1124). *)
Record Participant := mkParticipant {
  user_type : string;
  user_name : string;
  socket_id : string;
  joined_at : string
}.

(** The keys of the Flask [session] that the handlers read; [login] sets
    the three together (lines 453-457). *)
Record HttpSession := mkHttpSession {
  s_user_id : string;
  s_user_type : string;
  s_user_name : string
}.

(** The context of one inbound Socket.IO event: [request.sid] and the Flask
    [session] of the connection ([None] when ['user_id' not in session]). *)
Record Conn := mkConn {
  request_sid : string;
  session : option HttpSession
}.

(** The row [db.get_lecture_by_id] returns, as far as the route reads it. *)
Record Lecture := mkLecture {
  l_teacher_id : string;
  l_title : string
}.

(** A started [threading.Timer(interval, lambda: cleanup_session(target))]. *)
Record Timer := mkTimer {
  interval : Q;
  target : string
}.

(** One [emit(event, payload, room=..., include_self=...)] call.  Without a
    [room] argument Flask-SocketIO addresses [request.sid]; with
    [include_self=False] the sender's sid is skipped. *)
Record Emit := mkEmit {
  event : string;
  payload : pyval;
  room : string;
  skip_sid : option string
}.

(** The module-level state, the Socket.IO room table and the pending timers. *)
Record State := mkState {
  active_sessions : gmap string Session;
  session_participants : gmap string (list (string * Participant));
  online_users : gset string;
  sio_rooms : gset (string * string);
  timers : list Timer
}.

Definition initial_state : State :=
  mkState ∅ ∅ ∅ ∅ [].

Definition with_active_sessions (m : gmap string Session) (st : State) : State :=
  mkState m (session_participants st) (online_users st) (sio_rooms st) (timers st).

Definition with_session_participants
  (m : gmap string (list (string * Participant))) (st : State) : State :=
  mkState (active_sessions st) m (online_users st) (sio_rooms st) (timers st).

Definition with_online_users (u : gset string) (st : State) : State :=
  mkState (active_sessions st) (session_participants st) u (sio_rooms st) (timers st).

Definition with_sio_rooms (r : gset (string * string)) (st : State) : State :=
  mkState (active_sessions st) (session_participants st) (online_users st) r (timers st).

Definition with_timers (t : list Timer) (st : State) : State :=
  mkState (active_sessions st) (session_participants st) (online_users st) (sio_rooms st) t.

Definition with_status (v : string) (s : Session) : Session :=
  mkSession (lecture_id s) (teacher_id s) (teacher_name s) (lecture_title s)
            (started_at s) v (participants s) (recordings s).

(** ** Inbound payloads *)

Record JoinData := mkJoinData {
  jd_session_id : option string
}.

Record LeaveData := mkLeaveData {
  ld_session_id : option string;
  ld_user_id : option string
}.

(** The payload of [webrtc_offer], [webrtc_answer] and [ice_candidate];
    [sd_body] is the [offer], [answer] or [candidate] field. *)
Record SignalData := mkSignalData {
  sd_session_id : option string;
  sd_target_user_id : option string;
  sd_from_user_id : option string;
  sd_body : pyval
}.

(** The payload of [chat_message]: [session_id] and the remaining keys. *)
Record ChatData := mkChatData {
  cd_session_id : option string;
  cd_fields : list (string * pyval)
}.

Definition chat_to_py (d : ChatData) : pyval :=
  PDict (("session_id", opt_py (cd_session_id d)) :: cd_fields d).

(** ** Socket.IO primitives *)

(** [emit(ev, p)]: to the sender. *)
Definition emit_self (c : Conn) (ev : string) (p : pyval) : Emit :=
  mkEmit ev p (request_sid c) None.

(** [emit(ev, p, room=r)] *)
Definition emit_room (ev : string) (p : pyval) (r : string) : Emit :=
  mkEmit ev p r None.

(** [emit(ev, p, room=r, include_self=False)] *)
Definition emit_others (c : Conn) (ev : string) (p : pyval) (r : string) : Emit :=
  mkEmit ev p r (Some (request_sid c)).

(** [emit('error', {'message': m})] *)
Definition emit_error (c : Conn) (m : string) : Emit :=
  emit_self c "error" (PDict [("message", PStr m)]).

Definition join_room (r : string) (c : Conn) (st : State) : State :=
  with_sio_rooms ({[ (r, request_sid c) ]} ∪ sio_rooms st) st.

Definition leave_room (r : string) (c : Conn) (st : State) : State :=
  with_sio_rooms (sio_rooms st ∖ {[ (r, request_sid c) ]}) st.

(** ** The error taxonomy and the messages the code sends for it *)

Inductive ErrorKind :=
| SessionNotFound
| TargetNotFound
| AuthenticationRequired
| InvalidSignalingData.

Definition error_message (k : ErrorKind) : string :=
  match k with
  | SessionNotFound => "Session not found"
  | TargetNotFound => "Target not found"
  | AuthenticationRequired => "Authentication required"
  | InvalidSignalingData => "Invalid signaling data"
  end.

(** ** [cleanup_session] (lines 99-104) *)

Definition cleanup_session (session_id : string) (st : State) : State :=
  let st1 :=
    if bool_decide (is_Some (active_sessions st !! session_id))
    then with_active_sessions (delete session_id (active_sessions st)) st
    else st in
  if bool_decide (is_Some (session_participants st1 !! session_id))
  then with_session_participants (delete session_id (session_participants st1)) st1
  else st1.

(** The delay passed to [threading.Timer] at line 1160. *)
Definition CLEANUP_DELAY : Q := 5%Q.

(** ** Login bookkeeping

    The successful branch of [login] records the user in [online_users]
    (lines 458-463); [logout] removes the entry (lines 483-484). *)

Definition login_ok (s : HttpSession) (st : State) : State :=
  with_online_users ({[ s_user_id s ]} ∪ online_users st) st.

Definition logout (uid : string) (st : State) : State :=
  if negb (String.eqb uid "") && bool_decide (uid ∈ online_users st)
  then with_online_users (online_users st ∖ {[ uid ]}) st
  else st.

(** ** [start_live_session] (lines 786-833), under [api_teacher_required]
    (lines 160-177).  The last component is the HTTP status code. *)

Definition new_session_id (lecture : string) (uuid_hex : string) : string :=
  "session_" ++ lecture ++ "_" ++ String.substring 0 8 uuid_hex.

Definition live_session_started (sid lecture title teacher : string) : Emit :=
  emit_room "live_session_started"
    (PDict [("session_id", PStr sid);
            ("lecture_id", PStr lecture);
            ("lecture_title", PStr title);
            ("teacher_name", PStr teacher);
            ("join_url", PStr ("/student/join_session/" ++ sid))])
    "students".

Definition start_live_session (st : State) (sess : option HttpSession)
  (lecture_id : option string) (lecture : option Lecture)
  (uuid_hex now : string) : State * list Emit * nat :=
  match sess with
  | None => (st, [], 401)
  | Some s =>
    if String.eqb (s_user_id s) "" then (st, [], 401)
    else if negb (String.eqb (s_user_type s) "teacher") then (st, [], 403)
    else if negb (bool_decide (s_user_id s ∈ online_users st)) then (st, [], 401)
    else if negb (truthy lecture_id) then (st, [], 400)
    else
      match lecture_id, lecture with
      | Some lid, Some lec =>
        if negb (String.eqb (l_teacher_id lec) (s_user_id s)) then (st, [], 403)
        else
          let session_id := new_session_id lid uuid_hex in
          let entry :=
            mkSession lid (s_user_id s) (s_user_name s) (l_title lec)
                      now "active" [] [] in
          (with_active_sessions (<[session_id := entry]> (active_sessions st)) st,
           [live_session_started session_id lid (l_title lec) (s_user_name s)],
           201)
      | _, _ => (st, [], 403)
      end
  end.

(** ** [handle_join_session] (lines 1098-1137) *)

Definition participant_to_py (p : Participant) : pyval :=
  PDict [("user_type", PStr (user_type p));
         ("user_name", PStr (user_name p));
         ("socket_id", PStr (socket_id p));
         ("joined_at", PStr (joined_at p))].

Definition user_joined_payload (s : HttpSession) (count : nat) : pyval :=
  PDict [("user_id", PStr (s_user_id s));
         ("user_name", PStr (s_user_name s));
         ("user_type", PStr (s_user_type s));
         ("participants_count", PInt (Z.of_nat count))].

Definition session_info_payload (sid : string)
  (d : list (string * Participant)) : pyval :=
  PDict [("session_id", PStr sid);
         ("participants", PList (map participant_to_py (PyDict.values d)));
         ("participants_count", PInt (Z.of_nat (PyDict.len d)))].

Definition handle_join_session (st : State) (c : Conn) (data : JoinData)
  (now : string) : State * list Emit :=
  let session_id := jd_session_id data in
  match session c with
  | None => (st, [emit_error c "Authentication required"])
  | Some s =>
    let user_id := s_user_id s in
    match session_id with
    | Some sid =>
      if negb (bool_decide (is_Some (active_sessions st !! sid)))
      then (st, [emit_error c "Session not found"])
      else
        let st1 := join_room sid c st in
        let st2 :=
          if negb (bool_decide (is_Some (session_participants st1 !! sid)))
          then with_session_participants (<[sid := []]> (session_participants st1)) st1
          else st1 in
        let d := default [] (session_participants st2 !! sid) in
        let d' :=
          PyDict.set user_id
            (mkParticipant (s_user_type s) (s_user_name s) (request_sid c) now) d in
        let st3 :=
          with_session_participants (<[sid := d']> (session_participants st2)) st2 in
        (st3,
         [emit_others c "user_joined" (user_joined_payload s (PyDict.len d')) sid;
          emit_self c "session_info" (session_info_payload sid d')])
    | None => (st, [emit_error c "Session not found"])
    end
  end.

(** ** [handle_leave_session] (lines 1139-1160) *)

(** [data.get('user_id') or (session.get('user_id') if 'user_id' in session else None)] *)
Definition leave_user_id (c : Conn) (data : LeaveData) : option string :=
  py_or (ld_user_id data)
        (match session c with
         | Some s => Some (s_user_id s)
         | None => None
         end).

Definition user_left_payload (uid : string) (count : nat) : pyval :=
  PDict [("user_id", PStr uid);
         ("participants_count", PInt (Z.of_nat count))].

Definition session_ended (sid : string) : Emit :=
  emit_room "session_ended" (PDict []) sid.

Definition handle_leave_session (st : State) (c : Conn) (data : LeaveData)
  : State * list Emit :=
  let session_id := ld_session_id data in
  let user_id := leave_user_id c data in
  if negb (truthy session_id) || negb (truthy user_id) then (st, [])
  else
    match session_id, user_id with
    | Some sid, Some uid =>
      let st1 := leave_room sid c st in
      match session_participants st1 !! sid with
      | Some d =>
        if PyDict.mem uid d then
          let d' := PyDict.del uid d in
          let st2 :=
            with_session_participants (<[sid := d']> (session_participants st1)) st1 in
          let participants_count := PyDict.len d' in
          let left := emit_room "user_left" (user_left_payload uid participants_count) sid in
          if Nat.eqb participants_count 0 then
            match active_sessions st2 !! sid with
            | Some s =>
              let st3 :=
                with_active_sessions
                  (<[sid := with_status "ended" s]> (active_sessions st2)) st2 in
              let st4 := with_timers (timers st3 ++ [mkTimer CLEANUP_DELAY sid]) st3 in
              (st4, [left; session_ended sid])
            | None => (st2, [left])
            end
          else (st2, [left])
        else (st1, [])
      | None => (st1, [])
      end
    | _, _ => (st, [])
    end.

(** ** The relay handlers (lines 1162-1214)

    [handle_webrtc_offer], [handle_webrtc_answer] and [handle_ice_candidate]
    have the same body up to the event name and the name of the forwarded
    field; [relay] is that body.  After the guard both identifiers are
    non-empty strings, so the last branch of the [match] is never taken. *)

Definition relay_payload (field : string) (data : SignalData) : pyval :=
  PDict [("from_user_id", opt_py (sd_from_user_id data));
         (field, sd_body data)].

Definition relay (kind field : string) (st : State) (c : Conn)
  (data : SignalData) : State * list Emit :=
  let session_id := sd_session_id data in
  let target_user_id := sd_target_user_id data in
  if negb (truthy session_id) || negb (truthy target_user_id)
     || negb (bool_decide (is_Some (session_id ≫= (session_participants st !!.))))
  then (st, [emit_error c "Invalid signaling data"])
  else
    match session_id, target_user_id with
    | Some sid, Some tid =>
      match PyDict.get tid (default [] (session_participants st !! sid)) with
      | None => (st, [emit_error c "Target not found"])
      | Some tgt =>
        (st, [emit_room kind (relay_payload field data) (socket_id tgt)])
      end
    | _, _ => (st, [emit_error c "Invalid signaling data"])
    end.

Definition handle_webrtc_offer := relay "webrtc_offer" "offer".
Definition handle_webrtc_answer := relay "webrtc_answer" "answer".
Definition handle_ice_candidate := relay "ice_candidate" "candidate".

(** ** [handle_chat_message] (lines 1216-1221) *)

Definition handle_chat_message (st : State) (c : Conn) (data : ChatData)
  : State * list Emit :=
  let session_id := cd_session_id data in
  if negb (truthy session_id) then (st, [])
  else
    match session_id with
    | Some sid => (st, [emit_room "chat_message" (chat_to_py data) sid])
    | None => (st, [])
    end.

(** ** Traces *)

Inductive Event :=
| EvLogin (s : HttpSession)
| EvLogout (uid : string)
| EvStart (sess : option HttpSession) (lecture_id : option string)
          (lecture : option Lecture) (uuid_hex now : string)
| EvJoin (c : Conn) (data : JoinData) (now : string)
| EvLeave (c : Conn) (data : LeaveData)
| EvOffer (c : Conn) (data : SignalData)
| EvAnswer (c : Conn) (data : SignalData)
| EvIce (c : Conn) (data : SignalData)
| EvChat (c : Conn) (data : ChatData)
| EvTimer (n : nat).

(** The [n]-th pending timer fires: it leaves the pending list and its
    callback runs. *)
Definition fire_timer (n : nat) (st : State) : State :=
  match timers st !! n with
  | Some t =>
    cleanup_session (target t) (with_timers (take n (timers st) ++ drop (S n) (timers st)) st)
  | None => st
  end.

Definition step (st : State) (ev : Event) : State * list Emit :=
  match ev with
  | EvLogin s => (login_ok s st, [])
  | EvLogout uid => (logout uid st, [])
  | EvStart sess lid lec hex now => (start_live_session st sess lid lec hex now).1
  | EvJoin c d now => handle_join_session st c d now
  | EvLeave c d => handle_leave_session st c d
  | EvOffer c d => handle_webrtc_offer st c d
  | EvAnswer c d => handle_webrtc_answer st c d
  | EvIce c d => handle_ice_candidate st c d
  | EvChat c d => handle_chat_message st c d
  | EvTimer n => (fire_timer n st, [])
  end.

(** Runs a trace; the emits of all events are collected in order. *)
Fixpoint run (st : State) (evs : list Event) : State * list Emit :=
  match evs with
  | [] => (st, [])
  | ev :: rest =>
    let '(st1, out1) := step st ev in
    let '(st2, out2) := run st1 rest in
    (st2, (out1 ++ out2)%list)
  end.

Inductive reachable : State → Prop :=
| reachable_init : reachable initial_state
| reachable_step st ev : reachable st → reachable (step st ev).1.

Definition is_timer (ev : Event) : bool :=
  match ev with
  | EvTimer _ => true
  | _ => false
  end.

(** ** Observations on states and emit logs *)

(** [U] holds a membership in [S]. *)
Definition member (st : State) (sid uid : string) : Prop :=
  ∃ d p, session_participants st !! sid = Some d ∧ PyDict.get uid d = Some p.

(** [len(session_participants[sid])], zero when the session is not tracked. *)
Definition count (st : State) (sid : string) : nat :=
  PyDict.len (default [] (session_participants st !! sid)).

(** Number of [session_ended] broadcasts to the room of [sid] in a log. *)
Definition count_session_ended (sid : string) (out : list Emit) : nat :=
  length (filter (λ e, event e = "session_ended" ∧ room e = sid) out).

(** The emits of a log that are not [error] replies. *)
Definition deliveries (out : list Emit) : list Emit :=
  filter (λ e, event e ≠ "error") out.

(** ** State invariant

    What every state reached from [initial_state] satisfies:
    tracked sessions are registered, the [participants] list of a registry
    entry is empty, registered ids come from [new_session_id], and a user
    id occurs once among the members of a session. *)

Record Inv (st : State) : Prop := mkInv {
  inv_tracked_registered :
    ∀ sid, is_Some (session_participants st !! sid) →
           is_Some (active_sessions st !! sid);
  inv_participants_nil :
    ∀ sid s, active_sessions st !! sid = Some s → participants s = [];
  inv_session_ids :
    ∀ sid, is_Some (active_sessions st !! sid) → sid ≠ "";
  inv_unique_members :
    ∀ sid d, session_participants st !! sid = Some d → NoDup (PyDict.keys d)
}.

(** A relay handler [h] forwarding the field [field] does not look at its
    sender: any two connections submitting the same payload in the same
    state leave the same state and cause the same deliveries, and what is
    delivered is built from the payload alone. *)
Definition sender_independent
  (h : State → Conn → SignalData → State * list Emit) (field : string) : Prop :=
  ∀ st c1 c2 data,
    (h st c1 data).1 = (h st c2 data).1
    ∧ deliveries (h st c1 data).2 = deliveries (h st c2 data).2
    ∧ ∀ e, In e (deliveries (h st c1 data).2) →
           payload e = relay_payload field data
           ∧ ∃ sid tid tgt,
               sd_session_id data = Some sid
               ∧ sd_target_user_id data = Some tid
               ∧ PyDict.get tid (default [] (session_participants st !! sid)) = Some tgt
               ∧ room e = socket_id tgt.

(** ** A classroom used in the examples

    Teacher [T1] starts a session for lecture [L1] and joins it; student
    [U1] is logged in on a second connection; a third connection never
    logged in. *)

Definition teacher : HttpSession := mkHttpSession "T1" "teacher" "Asha".
Definition student : HttpSession := mkHttpSession "U1" "student" "Ravi".
Definition conn_teacher : Conn := mkConn "sid-T1" (Some teacher).
Definition conn_teacher_again : Conn := mkConn "sid-T1-tab2" (Some teacher).
Definition conn_student : Conn := mkConn "sid-U1" (Some student).
Definition conn_anonymous : Conn := mkConn "sid-anon" None.
Definition S1 : string := "session_L1_deadbeef".

Definition join_S1 : JoinData := mkJoinData (Some S1).
Definition leave_S1 : LeaveData := mkLeaveData (Some S1) None.

Definition trace_started : list Event :=
  [EvLogin teacher;
   EvStart (Some teacher) (Some "L1") (Some (mkLecture "T1" "Algebra"))
           "deadbeefcafe0123" "2024-01-01T10:00:00"].

Definition trace_teacher_joined : list Event :=
  (trace_started ++ [EvJoin conn_teacher join_S1 "2024-01-01T10:00:05"])%list.

(** The teacher leaves, comes back before any timer fires, and leaves again. *)
Definition trace_rejoin : list Event :=
  (trace_teacher_joined ++
   [EvLeave conn_teacher leave_S1;
    EvJoin conn_teacher join_S1 "2024-01-01T10:00:07";
    EvLeave conn_teacher leave_S1])%list.

Definition st_started : State := (run initial_state trace_started).1.
Definition st_teacher_joined : State := (run initial_state trace_teacher_joined).1.

(** An offer for the teacher, as the student's client would build it. *)
Definition offer_to_teacher : SignalData :=
  mkSignalData (Some S1) (Some "T1") (Some "U1") (PDict [("sdp", PStr "v=0")]).

(** An offer naming a session nobody tracks. *)
Definition offer_missing_session : SignalData :=
  mkSignalData (Some "S_missing") (Some "T1") (Some "U1") (PDict [("sdp", PStr "v=0")]).



(** ** HTTP replies and the Flask session

    A route returns one of three kinds of reply.  [RJson code body] is
    [jsonify(body), code]; [RRedirect endpoint msg] is [flash(msg, 'error')]
    followed by [redirect(url_for(endpoint))]; [RRender template lecture]
    is [render_template(template, lecture_id=lecture)].  Beside its reply a
    route returns the Flask [session] it leaves behind: [session.clear()]
    leaves [None]. *)

Inductive jval :=
| JBool (b : bool)
| JStr (s : string).

Inductive Reply :=
| RJson (code : nat) (body : list (string * jval))
| RRedirect (endpoint : string) (flashed : string)
| RRender (template : string) (lecture : string).

Definition json_error (code : nat) (msg : string) : Reply :=
  RJson code [("error", JStr msg)].

(** ['user_id' in session and session.get('user_id')] *)
Definition has_user_id (sess : option HttpSession) : bool :=
  match sess with
  | Some s => negb (String.eqb (s_user_id s) "")
  | None => false
  end.

(** [session.get('user_type') == t] *)
Definition session_type_is (t : string) (sess : option HttpSession) : bool :=
  match sess with
  | Some s => String.eqb (s_user_type s) t
  | None => false
  end.

(** [session.get('user_id') in online_users] *)
Definition session_online (st : State) (sess : option HttpSession) : bool :=
  match sess with
  | Some s => bool_decide (s_user_id s ∈ online_users st)
  | None => false
  end.

(** ** The authentication decorators (lines 115-308)

    A decorator either lets the request through ([None]) or answers it
    itself; the second component is the session afterwards. *)

Definition to_login (msg : string) : option Reply * option HttpSession :=
  (Some (RRedirect "login_page" msg), None).

Definition login_required (st : State) (sess : option HttpSession)
  : option Reply * option HttpSession :=
  if negb (has_user_id sess) then to_login "Please log in to access this page."
  else if negb (session_online st sess)
  then to_login "Session expired. Please log in again."
  else (None, sess).

Definition teacher_required (st : State) (sess : option HttpSession)
  : option Reply * option HttpSession :=
  if negb (has_user_id sess) then to_login "Please log in to access this page."
  else if negb (session_type_is "teacher" sess)
  then to_login "Access denied. Teachers only."
  else if negb (session_online st sess)
  then to_login "Session expired. Please log in again."
  else (None, sess).

Definition student_required (st : State) (sess : option HttpSession)
  : option Reply * option HttpSession :=
  if negb (has_user_id sess) then to_login "Please log in to access this page."
  else if negb (session_type_is "student" sess)
  then to_login "Access denied. Students only."
  else if negb (session_online st sess)
  then to_login "Session expired. Please log in again."
  else (None, sess).

(** The definition at lines 250-272, which replaces the one at lines
    179-195 before any route is decorated with it. *)
Definition admin_required (st : State) (sess : option HttpSession)
  : option Reply * option HttpSession :=
  if negb (has_user_id sess) then to_login "Please log in to access this page."
  else if negb (session_type_is "admin" sess)
  then to_login "Access denied. Admin only."
  else if negb (session_online st sess)
  then to_login "Session expired. Please log in again."
  else (None, sess).

Definition api_teacher_required (st : State) (sess : option HttpSession)
  : option Reply * option HttpSession :=
  if negb (has_user_id sess)
  then (Some (json_error 401 "Please log in to access this API"), sess)
  else if negb (session_type_is "teacher" sess)
  then (Some (json_error 403 "Access denied. Teachers only."), sess)
  else if negb (session_online st sess)
  then (Some (json_error 401 "Session expired. Please log in again."), sess)
  else (None, sess).

Definition api_admin_required (st : State) (sess : option HttpSession)
  : option Reply * option HttpSession :=
  if negb (has_user_id sess)
  then (Some (json_error 401 "Please log in to access this API"), sess)
  else if negb (session_type_is "admin" sess)
  then (Some (json_error 403 "Access denied. Admin only."), sess)
  else (None, sess).

Definition api_student_required (st : State) (sess : option HttpSession)
  : option Reply * option HttpSession :=
  if negb (has_user_id sess)
  then (Some (json_error 401 "Please log in to access this API"), sess)
  else if negb (session_type_is "student" sess)
  then (Some (json_error 403 "Access denied. Students only."), sess)
  else (None, sess).

(** [validate_token] (lines 300-307): tokens are not implemented. *)
Definition validate_token (token : string) : option string := None.

(** [s.split(sep)] for a one-character separator. *)
Fixpoint py_split (sep : Ascii.ascii) (s : string) : list string :=
  match s with
  | EmptyString => [EmptyString]
  | String a r =>
    if Ascii.eqb a sep then EmptyString :: py_split sep r
    else
      match py_split sep r with
      | h :: t => String a h :: t
      | [] => [String a EmptyString]
      end
  end.

(** [auth_header.split(' ')[1]]; a header that starts with ['Bearer '] has
    a second part. *)
Definition bearer_token (auth_header : string) : string :=
  default "" (py_split (Ascii.ascii_of_nat 32) auth_header !! 1).

Definition api_auth_required (st : State) (sess : option HttpSession)
  (auth_header : option string) : option Reply * option HttpSession :=
  if has_user_id sess then
    if negb (session_online st sess)
    then (Some (json_error 401 "Session expired. Please log in again."), None)
    else (None, sess)
  else
    let by_token :=
      match auth_header with
      | Some h =>
        if negb (String.eqb h "") && String.prefix "Bearer " h
        then truthy (validate_token (bearer_token h))
        else false
      | None => false
      end in
    if by_token then (None, sess)
    else (Some (json_error 401 "Authentication required"), sess).

(** The reply of a decorated route: the decorator's, or the body's. *)
Definition guarded (g : option Reply * option HttpSession) (body : Reply)
  : Reply * option HttpSession :=
  match g with
  | (Some r, sess') => (r, sess')
  | (None, sess') => (body, sess')
  end.

(** ** [login] (lines 401-473)

    The three fields of the request are strings or absent.  The two lookups
    of the data-access layer and [check_password_hash] are parameters. *)

Record LoginData := mkLoginData {
  lg_email : option string;
  lg_password : option string;
  lg_user_type : option string
}.

(** A row of the teacher or student table, as far as [login] reads it. *)
Record User := mkUser {
  u_id : string;
  u_name : string;
  u_email : string;
  u_password_hash : string
}.

Definition admin_session : HttpSession := mkHttpSession "admin" "admin" "Admin".

Definition login_success (user_type : string) : Reply :=
  RJson 200 [("success", JBool true);
             ("message", JStr "Login successful");
             ("user_type", JStr user_type);
             ("redirect_url", JStr ("/" ++ user_type ++ "_dashboard"))].

Section Login.
Variable get_teacher_by_email : string → option User.
Variable get_student_by_email : string → option User.
Variable check_password_hash : string → string → bool.

(** The part of [login] after the lookup, for a teacher or a student. *)
Definition login_user (st : State) (sess : option HttpSession)
  (user : option User) (password user_type : string)
  : State * option HttpSession * Reply :=
  match user with
  | None => (st, sess, json_error 404 "User not found")
  | Some u =>
    if negb (check_password_hash (u_password_hash u) password)
    then (st, sess, json_error 401 "Invalid password")
    else
      let s := mkHttpSession (u_id u) user_type (u_name u) in
      (login_ok s st, Some s, login_success user_type)
  end.

Definition login (st : State) (sess : option HttpSession) (data : LoginData)
  : State * option HttpSession * Reply :=
  match lg_email data, lg_password data, lg_user_type data with
  | Some email, Some password, Some user_type =>
    if String.eqb user_type "teacher"
    then login_user st sess (get_teacher_by_email email) password user_type
    else if String.eqb user_type "student"
    then login_user st sess (get_student_by_email email) password user_type
    else if String.eqb user_type "admin" then
      if negb (String.eqb email "Admin@gmail.com")
         || negb (String.eqb password "Admin@#1234")
      then (st, sess, json_error 401 "Invalid admin credentials")
      else (login_ok admin_session st, Some admin_session, login_success "admin")
    else (st, sess, json_error 400 "Invalid user type")
  | _, _, _ => (st, sess, json_error 400 "Missing required fields")
  end.

End Login.

(** ** [logout] (lines 475-518), [validate_session] (558-581) and
    [force_logout] (583-606) *)

Definition api_logout (st : State) (sess : option HttpSession) (now : string)
  : State * option HttpSession * Reply :=
  let st' :=
    match sess with
    | Some s => logout (s_user_id s) st
    | None => st
    end in
  (st', None,
   RJson 200 [("success", JBool true);
              ("message", JStr "Logged out successfully");
              ("redirect_url", JStr "/");
              ("logout_timestamp", JStr now)]).

(** [user_email] is the value of [session.get('user_email')]. *)
Definition validate_session (st : State) (sess : option HttpSession)
  (user_email : string) : option HttpSession * Reply :=
  if negb (has_user_id sess)
  then (sess, RJson 401 [("valid", JBool false); ("error", JStr "No active session")])
  else if negb (session_online st sess)
  then (None, RJson 401 [("valid", JBool false); ("error", JStr "Session expired")])
  else
    match sess with
    | Some s =>
      (sess, RJson 200 [("valid", JBool true);
                        ("user_id", JStr (s_user_id s));
                        ("user_type", JStr (s_user_type s));
                        ("user_name", JStr (s_user_name s));
                        ("user_email", JStr user_email)])
    | None => (sess, RJson 401 [("valid", JBool false); ("error", JStr "No active session")])
    end.

Definition force_logout (st : State) (sess : option HttpSession)
  (target_user_id : option string) : State * Reply :=
  if negb (session_type_is "admin" sess)
  then (st, json_error 403 "Admin access required")
  else if negb (truthy target_user_id)
  then (st, json_error 400 "User ID required")
  else
    match target_user_id with
    | Some t =>
      let st' :=
        if bool_decide (t ∈ online_users st)
        then with_online_users (online_users st ∖ {[ t ]}) st
        else st in
      (st', RJson 200 [("success", JBool true);
                       ("message", JStr ("User " ++ t ++ " logged out successfully"))])
    | None => (st, json_error 400 "User ID required")
    end.

(** ** Session lookup and the session pages *)

(** The loop of [get_session_by_lecture] (lines 874-877) over
    [active_sessions.items()]. *)
Fixpoint find_session_by_lecture (items : list (string * Session))
  (lecture : string) : Reply :=
  match items with
  | [] => json_error 404 "No active session for this lecture"
  | (sid, info) :: rest =>
    if String.eqb (lecture_id info) lecture && String.eqb (status info) "active"
    then RJson 200 [("success", JBool true); ("session_id", JStr sid)]
    else find_session_by_lecture rest lecture
  end.

(** [get_session_by_lecture] (lines 869-879); [items] is
    [active_sessions.items()], in the dictionary's insertion order. *)
Definition get_session_by_lecture (st : State) (sess : option HttpSession)
  (auth_header : option string) (items : list (string * Session))
  (lecture : string) : Reply * option HttpSession :=
  guarded (api_auth_required st sess auth_header)
          (find_session_by_lecture items lecture).

(** [items] lists the entries of [active_sessions], each once. *)
Definition items_of (st : State) (items : list (string * Session)) : Prop :=
  NoDup items.*1 ∧ ∀ sid s, (sid, s) ∈ items ↔ active_sessions st !! sid = Some s.

(** [join_session_page] (lines 1019-1028) *)
Definition join_session_page (st : State) (sess : option HttpSession)
  (session_id : string) : Reply * option HttpSession :=
  guarded (student_required st sess)
    (match active_sessions st !! session_id with
     | None => RRedirect "student_dashboard" "Session not found or has ended."
     | Some session_info =>
       RRender "student_live_session.html" (lecture_id session_info)
     end).

(** [manage_session_page] (lines 1030-1043) *)
Definition manage_session_page (st : State) (sess : option HttpSession)
  (session_id : string) : Reply * option HttpSession :=
  guarded (teacher_required st sess)
    (match active_sessions st !! session_id with
     | None => RRedirect "teacher_dashboard" "Session not found."
     | Some session_info =>
       if negb (bool_decide (Some (teacher_id session_info) = s_user_id <$> sess))
       then RRedirect "teacher_dashboard" "Access denied."
       else RRender "teacher_live_session.html" (lecture_id session_info)
     end).

(** ** [handle_connect] and [handle_disconnect] (lines 1080-1095) *)

Definition handle_connect (st : State) (c : Conn) : State * list Emit :=
  match session c with
  | Some s =>
    let user_type := s_user_type s in
    (join_room (user_type ++ "s") c st,
     [emit_self c "connected"
        (PDict [("message", PStr ("Connected as " ++ user_type));
                ("user_id", PStr (s_user_id s))])])
  | None => (st, [])
  end.

Definition handle_disconnect (st : State) (c : Conn) : State * list Emit :=
  match session c with
  | Some s => (leave_room (s_user_type s ++ "s") c st, [])
  | None => (st, [])
  end.

(** ** Requests beside the session events *)

Inductive Request :=
| ReqEvent (ev : Event)
| ReqConnect (c : Conn)
| ReqDisconnect (c : Conn)
| ReqForceLogout (sess : option HttpSession) (target_user_id : option string).

Definition serve (st : State) (r : Request) : State * list Emit :=
  match r with
  | ReqEvent ev => step st ev
  | ReqConnect c => handle_connect st c
  | ReqDisconnect c => handle_disconnect st c
  | ReqForceLogout sess t => ((force_logout st sess t).1, [])
  end.

Fixpoint serve_all (st : State) (rs : list Request) : State * list Emit :=
  match rs with
  | [] => (st, [])
  | r :: rest =>
    let '(st1, out1) := serve st r in
    let '(st2, out2) := serve_all st1 rest in
    (st2, (out1 ++ out2)%list)
  end.

(** The requests that are neither a session start, a join, a leave nor a
    timer. *)
Definition passive (r : Request) : bool :=
  match r with
  | ReqEvent (EvStart _ _ _ _ _) => false
  | ReqEvent (EvJoin _ _ _) => false
  | ReqEvent (EvLeave _ _) => false
  | ReqEvent (EvTimer _) => false
  | _ => true
  end.

Definition is_start (ev : Event) : bool :=
  match ev with
  | EvStart _ _ _ _ _ => true
  | _ => false
  end.

(** Number of emits with a given event name in a log. *)
Definition count_event (name : string) (out : list Emit) : nat :=
  length (filter (λ e, event e = name) out).


(** ** More of the classroom *)

Definition asha : User := mkUser "T1" "Asha" "asha@school.example" "hash-of-secret".
Definition ravi : User := mkUser "U1" "Ravi" "ravi@school.example" "hash-of-pw".

Definition teachers_table (email : string) : option User :=
  if String.eqb email "asha@school.example" then Some asha else None.
Definition students_table (email : string) : option User :=
  if String.eqb email "ravi@school.example" then Some ravi else None.
Definition toy_check_hash (hash password : string) : bool :=
  String.eqb hash ("hash-of-" ++ password).

Definition other_teacher : HttpSession := mkHttpSession "T2" "teacher" "Meena".


(** The teacher left [S1] as its last member; no timer has fired. *)
Definition st_ended : State :=
  (handle_leave_session st_teacher_joined conn_teacher leave_S1).1.

(** * Facts about the dictionary operations *)

Section PyDictFacts.
Context {V : Type}.
Implicit Types (k : string) (v : V) (d : list (string * V)).

Lemma pd_get_set_eq k v d : PyDict.get k (PyDict.set k v d) = Some v.
Proof.
  induction d as [|[k' v'] r IH]; simpl.
  - by rewrite String.eqb_refl.
  - destruct (String.eqb_spec k k') as [->|Hne]; simpl.
    + by rewrite String.eqb_refl.
    + destruct (String.eqb_spec k k'); [done|]. exact IH.
Qed.


Lemma pd_keys_set_present k v d :
  PyDict.mem k d = true → PyDict.keys (PyDict.set k v d) = PyDict.keys d.
Proof.
  unfold PyDict.mem, PyDict.keys.
  induction d as [|[k' v'] r IH]; simpl; [done|].
  destruct (String.eqb_spec k k') as [->|Hne]; simpl; [done|].
  intros Hm. by rewrite IH.
Qed.

Lemma pd_keys_set_absent k v d :
  PyDict.mem k d = false →
  PyDict.keys (PyDict.set k v d) = (PyDict.keys d ++ [k])%list.
Proof.
  unfold PyDict.mem, PyDict.keys.
  induction d as [|[k' v'] r IH]; simpl; [done|].
  destruct (String.eqb_spec k k') as [->|Hne]; simpl; [done|].
  intros Hm. by rewrite IH.
Qed.


Lemma pd_mem_keys k d : PyDict.mem k d = true ↔ k ∈ PyDict.keys d.
Proof.
  unfold PyDict.mem, PyDict.keys.
  induction d as [|[k' v'] r IH]; simpl.
  - split; [done|]. by intros ?%elem_of_nil.
  - destruct (String.eqb_spec k k') as [->|Hne].
    + split; [intros _; left | done].
    + rewrite IH. split; [by right|]. by intros [?|?]%elem_of_cons.
Qed.

Lemma pd_keys_del_subseteq k d : PyDict.keys (PyDict.del k d) ⊆ PyDict.keys d.
Proof.
  unfold PyDict.keys.
  induction d as [|[k' v'] r IH]; simpl; [done|].
  destruct (String.eqb_spec k k'); simpl.
  - by apply list_subseteq_cons.
  - intros x [->|Hx]%elem_of_cons; [left|right; by apply IH].
Qed.

Lemma pd_nodup_set k v d :
  NoDup (PyDict.keys d) → NoDup (PyDict.keys (PyDict.set k v d)).
Proof.
  intros Hd. destruct (PyDict.mem k d) eqn:Hm.
  - by rewrite pd_keys_set_present.
  - rewrite pd_keys_set_absent by done.
    apply NoDup_app. split_and!; [done| |apply NoDup_singleton].
    intros x Hx ->%list_elem_of_singleton.
    apply pd_mem_keys in Hx. congruence.
Qed.

Lemma pd_nodup_del k d :
  NoDup (PyDict.keys d) → NoDup (PyDict.keys (PyDict.del k d)).
Proof.
  induction d as [|[k' v'] r IH]; simpl; [done|].
  intros [Hnotin Hr]%NoDup_cons.
  destruct (String.eqb_spec k k'); simpl; [done|].
  apply NoDup_cons. split; [|by apply IH].
  intros Hin. apply Hnotin. by apply (pd_keys_del_subseteq k r).
Qed.




End PyDictFacts.

(** * What [cleanup_session] does to the two dictionaries *)

Lemma cleanup_session_active sid st :
  active_sessions (cleanup_session sid st) = delete sid (active_sessions st).
Proof.
  unfold cleanup_session.
  repeat case_bool_decide; simpl; try done;
    symmetry; apply delete_id; by apply eq_None_not_Some.
Qed.

Lemma cleanup_session_participants sid st :
  session_participants (cleanup_session sid st)
  = delete sid (session_participants st).
Proof.
  unfold cleanup_session.
  repeat case_bool_decide; simpl in *; try done;
    symmetry; apply delete_id; by apply eq_None_not_Some.
Qed.

Lemma cleanup_session_timers sid st :
  timers (cleanup_session sid st) = timers st.
Proof. unfold cleanup_session. by repeat case_bool_decide. Qed.

(** * The invariant holds in every reachable state *)

Lemma Inv_initial : Inv initial_state.
Proof.
  split; simpl; intros *; rewrite ?lookup_empty;
    try done; by intros [? ?].
Qed.

Lemma Inv_same_dicts st st' :
  active_sessions st' = active_sessions st →
  session_participants st' = session_participants st →
  Inv st → Inv st'.
Proof. intros Ha Hp [? ? ? ?]. split; rewrite ?Ha, ?Hp; assumption. Qed.

Lemma Inv_cleanup sid st : Inv st → Inv (cleanup_session sid st).
Proof.
  intros [H1 H2 H3 H4].
  split; rewrite ?cleanup_session_active, ?cleanup_session_participants.
  - intros k. destruct (decide (sid = k)) as [->|Hne].
    + rewrite lookup_delete_eq. by intros [? ?].
    + rewrite !lookup_delete_ne by done. apply H1.
  - intros k s [_ Hs]%lookup_delete_Some. by eapply H2.
  - intros k [s [_ Hs]%lookup_delete_Some]. by eapply H3.
  - intros k d [_ Hd]%lookup_delete_Some. by eapply H4.
Qed.

Lemma Inv_fire_timer n st : Inv st → Inv (fire_timer n st).
Proof.
  intros HI. unfold fire_timer. destruct (timers st !! n); [|done].
  apply Inv_cleanup. by apply (Inv_same_dicts st).
Qed.

Lemma new_session_id_nonempty lid hex : new_session_id lid hex ≠ "".
Proof. unfold new_session_id. simpl. discriminate. Qed.

Lemma Inv_start st sess lid lec hex now :
  Inv st → Inv (start_live_session st sess lid lec hex now).1.1.
Proof.
  intros HI. unfold start_live_session.
  repeat case_match; simpl; try done.
  destruct HI as [I1 I2 I3 I4]. split; simpl.
  - intros k Hk. apply I1 in Hk. rewrite lookup_insert_is_Some'. by right.
  - intros k s0 Hs. apply lookup_insert_Some in Hs as [[_ <-]|[_ Hs]]; [done|].
    by eapply I2.
  - intros k Hk. apply lookup_insert_is_Some in Hk as [<-|[_ Hk]].
    + apply new_session_id_nonempty.
    + by apply I3.
  - done.
Qed.

(** An accepted join, in closed form: the membership dictionary of the
    session (empty if the session was not tracked yet) gets the caller's
    record under the caller's user id. *)
Lemma join_accepted st c data now s sid :
  session c = Some s →
  jd_session_id data = Some sid →
  is_Some (active_sessions st !! sid) →
  let d := default [] (session_participants st !! sid) in
  let d' := PyDict.set (s_user_id s)
              (mkParticipant (s_user_type s) (s_user_name s) (request_sid c) now) d in
  handle_join_session st c data now =
    (mkState (active_sessions st) (<[sid := d']> (session_participants st))
             (online_users st) ({[ (sid, request_sid c) ]} ∪ sio_rooms st)
             (timers st),
     [emit_others c "user_joined" (user_joined_payload s (PyDict.len d')) sid;
      emit_self c "session_info" (session_info_payload sid d')]).
Proof.
  intros Hs Hsid Hreg. unfold handle_join_session. rewrite Hs, Hsid.
  rewrite bool_decide_true by done. simpl.
  case_bool_decide as Htr; simpl.
  - done.
  - apply eq_None_not_Some in Htr.
    rewrite lookup_insert_eq, insert_insert_eq, Htr. done.
Qed.

Lemma Inv_join st c data now :
  Inv st → Inv (handle_join_session st c data now).1.
Proof.
  intros HI.
  destruct (session c) as [s|] eqn:Hs;
    [|unfold handle_join_session; by rewrite Hs].
  destruct (jd_session_id data) as [sid|] eqn:Hsid;
    [|unfold handle_join_session; by rewrite Hs, Hsid].
  destruct (decide (is_Some (active_sessions st !! sid))) as [Hreg|Hreg];
    [|unfold handle_join_session; rewrite Hs, Hsid;
      by rewrite bool_decide_false by done].
  rewrite (join_accepted st c data now s sid Hs Hsid Hreg).
  destruct HI as [H1 H2 H3 H4]. split; simpl; [|done|done|].
  - intros k Hk. apply lookup_insert_is_Some in Hk as [<-|[_ Hk]]; [done|].
    by apply H1.
  - intros k d Hd. apply lookup_insert_Some in Hd as [[_ <-]|[_ Hd]].
    + apply pd_nodup_set.
      destruct (session_participants st !! sid) as [d0|] eqn:Hd0; simpl.
      * by eapply H4.
      * constructor.
    + by eapply H4.
Qed.

Lemma Inv_leave st c data : Inv st → Inv (handle_leave_session st c data).1.
Proof.
  intros HI. unfold handle_leave_session.
  case_match; [done|].
  destruct (ld_session_id data) as [sid|]; [|done].
  destruct (leave_user_id c data) as [uid|]; [|done].
  simpl. destruct (session_participants st !! sid) as [d|] eqn:Hd;
    [|by apply (Inv_same_dicts st)].
  destruct (PyDict.mem uid d) eqn:Hm; [|by apply (Inv_same_dicts st)].
  destruct HI as [H1 H2 H3 H4].
  assert (Inv (with_session_participants
            (<[sid:=PyDict.del uid d]> (session_participants st))
            (leave_room sid c st))) as HI2.
  { split; simpl; [|done|done|].
    - intros k Hk. apply lookup_insert_is_Some in Hk as [<-|[_ Hk]]; [|by apply H1].
      apply H1. by rewrite Hd.
    - intros k d0 Hd0. apply lookup_insert_Some in Hd0 as [[_ <-]|[_ Hd0]].
      + apply pd_nodup_del. by eapply H4.
      + by eapply H4. }
  destruct (PyDict.len (PyDict.del uid d) =? 0)%nat; [|done].
  simpl. destruct (active_sessions st !! sid) as [s|] eqn:Hs; [|done].
  destruct HI2 as [G1 G2 G3 G4]. simpl in *. split; simpl.
  - intros k Hk. apply G1 in Hk. rewrite lookup_insert_is_Some'. by right.
  - intros k s0 Hs0. apply lookup_insert_Some in Hs0 as [[_ <-]|[_ Hs0]].
    + simpl. by eapply H2.
    + by eapply H2.
  - intros k Hk. apply lookup_insert_is_Some in Hk as [<-|[_ Hk]].
    + apply H3. by rewrite Hs.
    + by apply H3.
  - done.
Qed.

Lemma relay_state kind field st c data : (relay kind field st c data).1 = st.
Proof. unfold relay. by repeat case_match. Qed.

Lemma chat_state st c data : (handle_chat_message st c data).1 = st.
Proof. unfold handle_chat_message. by repeat case_match. Qed.

Lemma Inv_step st ev : Inv st → Inv (step st ev).1.
Proof.
  intros HI. destruct ev; simpl.
  - by apply (Inv_same_dicts st).
  - unfold logout. case_match; [by apply (Inv_same_dicts st)|done].
  - by apply Inv_start.
  - by apply Inv_join.
  - by apply Inv_leave.
  - unfold handle_webrtc_offer. by rewrite relay_state.
  - unfold handle_webrtc_answer. by rewrite relay_state.
  - unfold handle_ice_candidate. by rewrite relay_state.
  - by rewrite chat_state.
  - by apply Inv_fire_timer.
Qed.

Lemma reachable_Inv st : reachable st → Inv st.
Proof. induction 1; [apply Inv_initial|by apply Inv_step]. Qed.

(** * Traces *)

(** Refutes [member st sid uid] in a concrete state by evaluating the lookup. *)
Ltac no_such_member :=
  let d := fresh "d" in
  let p := fresh "p" in
  let Hd := fresh "Hd" in
  let Hp := fresh "Hp" in
  intros (d & p & Hd & Hp); vm_compute in Hd; injection Hd as <-;
  vm_compute in Hp; discriminate Hp.

Lemma reachable_run st evs : reachable st → reachable (run st evs).1.
Proof.
  revert st. induction evs as [|ev rest IH]; intros st Hst; simpl; [done|].
  pose proof (reachable_step st ev Hst) as H1.
  destruct (step st ev) as [st1 out1]. simpl in H1.
  specialize (IH st1 H1). by destruct (run st1 rest).
Qed.

(** * Leaving *)

(** A leave that passes the guard and finds the membership, in closed form. *)
Lemma leave_removed st c data sid uid d :
  ld_session_id data = Some sid →
  leave_user_id c data = Some uid →
  sid ≠ "" → uid ≠ "" →
  session_participants st !! sid = Some d →
  PyDict.mem uid d = true →
  let d' := PyDict.del uid d in
  let st2 := mkState (active_sessions st) (<[sid := d']> (session_participants st))
                     (online_users st) (sio_rooms st ∖ {[ (sid, request_sid c) ]})
                     (timers st) in
  let left := emit_room "user_left" (user_left_payload uid (PyDict.len d')) sid in
  handle_leave_session st c data =
    match PyDict.len d', active_sessions st !! sid with
    | 0, Some s =>
        (mkState (<[sid := with_status "ended" s]> (active_sessions st))
                 (<[sid := d']> (session_participants st))
                 (online_users st) (sio_rooms st ∖ {[ (sid, request_sid c) ]})
                 (timers st ++ [mkTimer CLEANUP_DELAY sid]),
         [left; session_ended sid])
    | _, _ => (st2, [left])
    end.
Proof.
  intros Hsid Huid Hs Hu Hd Hm. unfold handle_leave_session.
  rewrite Hsid, Huid. simpl.
  apply String.eqb_neq in Hs, Hu. rewrite Hs, Hu. simpl.
  rewrite Hd, Hm.
  destruct (PyDict.len (PyDict.del uid d)) as [|n]; simpl; [|done].
  by destruct (active_sessions st !! sid).
Qed.

(** A leave that does not find the membership changes nothing but the
    Socket.IO room table. *)
Lemma leave_not_found st c data :
  (∀ sid uid, ld_session_id data = Some sid → leave_user_id c data = Some uid →
              ¬ member st sid uid) →
  ∃ rooms, handle_leave_session st c data = (with_sio_rooms rooms st, []).
Proof.
  intros Hnm. unfold handle_leave_session.
  case_match; [exists (sio_rooms st); by destruct st|].
  destruct (ld_session_id data) as [sid|]; [|exists (sio_rooms st); by destruct st].
  destruct (leave_user_id c data) as [uid|]; [|exists (sio_rooms st); by destruct st].
  simpl. specialize (Hnm sid uid eq_refl eq_refl).
  destruct (session_participants st !! sid) as [d|] eqn:Hd; [|by eexists].
  destruct (PyDict.mem uid d) eqn:Hm; [|by eexists].
  exfalso. apply Hnm. unfold PyDict.mem in Hm.
  destruct (PyDict.get uid d) as [p|] eqn:Hg; [|done]. by exists d, p.
Qed.




(** * The cleanup timer *)

Lemma fire_timer_removes n t st :
  timers st !! n = Some t →
  active_sessions (fire_timer n st) !! target t = None
  ∧ session_participants (fire_timer n st) !! target t = None.
Proof.
  intros Hn. unfold fire_timer. rewrite Hn.
  rewrite cleanup_session_active, cleanup_session_participants.
  by rewrite !lookup_delete_eq.
Qed.

(** Only the firing of a timer takes a timer off the pending list. *)
Lemma step_timers_prefix st ev :
  is_timer ev = false → timers st `prefix_of` timers (step st ev).1.
Proof.
  intros Hev. destruct ev; simpl in *; try done.
  - unfold logout. by case_match.
  - unfold start_live_session. by repeat case_match.
  - unfold handle_join_session. by repeat case_match.
  - unfold handle_leave_session. repeat case_match; simpl; try done.
    by apply prefix_app_r.
  - unfold handle_webrtc_offer. by rewrite relay_state.
  - unfold handle_webrtc_answer. by rewrite relay_state.
  - unfold handle_ice_candidate. by rewrite relay_state.
  - by rewrite chat_state.
Qed.

Lemma run_timers_prefix st evs :
  existsb is_timer evs = false → timers st `prefix_of` timers (run st evs).1.
Proof.
  revert st. induction evs as [|ev rest IH]; intros st Hevs; simpl in *; [done|].
  apply orb_false_iff in Hevs as [Hev Hrest].
  pose proof (step_timers_prefix st ev Hev) as H1.
  destruct (step st ev) as [st1 out1]. simpl in H1.
  specialize (IH st1 Hrest). destruct (run st1 rest) as [st2 out2]. simpl in *.
  by etrans.
Qed.

Lemma leave_session_ended_inv st c data sid :
  In (session_ended sid) (handle_leave_session st c data).2 →
  timers (handle_leave_session st c data).1
  = (timers st ++ [mkTimer CLEANUP_DELAY sid])%list.
Proof.
  unfold handle_leave_session, session_ended, emit_room.
  repeat case_match; simpl; try tauto.
  - intros [E|[E|[]]]; [discriminate|]. by injection E as ->.
  - intros [E|[]]. discriminate.
  - intros [E|[]]. discriminate.
Qed.

(** C2.  Once a [leave_session] event has ended session [sid] (it
    broadcast [session_ended] to the room of [sid]), a timer with a delay of
    5 seconds and callback [cleanup_session(sid)] is pending.  No handler
    takes it off the pending list: after any further events [evs] in which
    no timer fires -- joins to [sid] included -- it is still pending at the
    same position, and when it fires both the registry entry and the
    participant-tracker entry of [sid] are gone. *)
Theorem cleanup_timer_never_cancelled st c data sid evs :
  In (session_ended sid) (handle_leave_session st c data).2 →
  existsb is_timer evs = false →
  let st1 := (handle_leave_session st c data).1 in
  let st2 := (run st1 evs).1 in
  let n := length (timers st) in
  timers st1 = (timers st ++ [mkTimer CLEANUP_DELAY sid])%list
  ∧ CLEANUP_DELAY = 5%Q
  ∧ timers st2 !! n = Some (mkTimer CLEANUP_DELAY sid)
  ∧ active_sessions (fire_timer n st2) !! sid = None
  ∧ session_participants (fire_timer n st2) !! sid = None.
Proof.
  intros Hended Hevs st1 st2 n.
  pose proof (leave_session_ended_inv st c data sid Hended) as Ht.
  fold st1 in Ht.
  assert (timers st2 !! n = Some (mkTimer CLEANUP_DELAY sid)) as Hn.
  { eapply prefix_lookup_Some; [|by apply run_timers_prefix].
    rewrite Ht. subst n. by rewrite lookup_app_r, Nat.sub_diag by lia. }
  split_and!; try done.
  - apply (fire_timer_removes n _ st2 Hn).
  - apply (fire_timer_removes n _ st2 Hn).
Qed.

(** The teacher ends [S1] by leaving; the student joins two seconds later;
    the timer is still pending and wipes the session, the student's
    membership included. *)
Lemma cleanup_timer_never_cancelled_witness :
  let st1 := (handle_leave_session st_teacher_joined conn_teacher leave_S1).1 in
  let st2 := (run st1 [EvJoin conn_student join_S1 "2024-01-01T10:00:07"]).1 in
  member st2 S1 "U1"
  ∧ timers st2 !! 0 = Some (mkTimer 5%Q S1)
  ∧ active_sessions (fire_timer 0 st2) !! S1 = None
  ∧ session_participants (fire_timer 0 st2) !! S1 = None.
Proof.
  intros st1 st2.
  destruct (cleanup_timer_never_cancelled st_teacher_joined conn_teacher
              leave_S1 S1 [EvJoin conn_student join_S1 "2024-01-01T10:00:07"])
    as (_ & _ & Hpending & Hreg & Htr).
  - vm_compute. right. left. reflexivity.
  - reflexivity.
  - split_and!; [|exact Hpending|exact Hreg|exact Htr].
    eexists _, _. split; vm_compute; reflexivity.
Defined.

(** * Relaying *)

Lemma truthy_Some s : truthy (Some s) = true ↔ s ≠ "".
Proof.
  simpl. destruct (String.eqb_spec s ""); simpl; split; congruence.
Qed.

(** The guard of the relay handlers rejects the event. *)
Lemma relay_rejected kind field st c data :
  truthy (sd_session_id data) = false
  ∨ truthy (sd_target_user_id data) = false
  ∨ (∀ sid, sd_session_id data = Some sid → session_participants st !! sid = None) →
  relay kind field st c data = (st, [emit_error c "Invalid signaling data"]).
Proof.
  intros H. unfold relay.
  destruct (truthy (sd_session_id data)) eqn:Hs; simpl; [|done].
  destruct (truthy (sd_target_user_id data)) eqn:Ht; simpl; [|done].
  destruct H as [H|[H|H]]; try done.
  destruct (sd_session_id data) as [sid|]; [|done].
  rewrite bool_decide_false; [done|]. simpl. rewrite (H sid eq_refl).
  by intros [? ?].
Qed.

(** The guard lets the event through: the target is looked up. *)
Lemma relay_looked_up kind field st c data sid tid d :
  sd_session_id data = Some sid →
  sd_target_user_id data = Some tid →
  sid ≠ "" → tid ≠ "" →
  session_participants st !! sid = Some d →
  relay kind field st c data =
    match PyDict.get tid d with
    | None => (st, [emit_error c "Target not found"])
    | Some tgt => (st, [emit_room kind (relay_payload field data) (socket_id tgt)])
    end.
Proof.
  intros Hsid Htid Hs Ht Hd. unfold relay. rewrite Hsid, Htid.
  apply truthy_Some in Hs, Ht. rewrite Hs, Ht. simpl.
  rewrite Hd. by rewrite bool_decide_true by done.
Qed.

Lemma deliveries_error c m : deliveries [emit_error c m] = [].
Proof. unfold deliveries. by rewrite filter_cons_False by (simpl; tauto). Qed.

Lemma relay_sender_independent kind field :
  kind ≠ "error" → sender_independent (relay kind field) field.
Proof.
  intros Hkind st c1 c2 data. rewrite !relay_state. split; [done|].
  unfold relay.
  destruct (negb (truthy (sd_session_id data)) || negb (truthy (sd_target_user_id data))
            || negb (bool_decide (is_Some
                 (sd_session_id data ≫= (session_participants st !!.))))) eqn:Hg;
    simpl.
  { rewrite !deliveries_error. split; [done|]. by intros e []. }
  destruct (sd_session_id data) as [sid|] eqn:Hsid; simpl;
    [|rewrite !deliveries_error; split; [done|]; by intros e []].
  destruct (sd_target_user_id data) as [tid|] eqn:Htid; simpl;
    [|rewrite !deliveries_error; split; [done|]; by intros e []].
  destruct (PyDict.get tid (default [] (session_participants st !! sid)))
    as [tgt|] eqn:Hget; simpl;
    [|rewrite !deliveries_error; split; [done|]; by intros e []].
  split; [done|]. unfold deliveries. rewrite filter_cons_True by done.
  rewrite filter_nil. intros e [<-|[]]. simpl. split; [done|].
  by exists sid, tid, tgt.
Qed.

(** C9.  The relay handlers [webrtc_offer], [webrtc_answer] and
    [ice_candidate] do not look at the sending connection: any two
    connections (whatever their identity and membership) submitting the
    same payload in the same state leave the state unchanged and cause the
    same delivery, addressed to the transport handle of the payload's
    [target_user_id] and carrying the payload's [from_user_id]. *)
Theorem relay_ignores_sender :
  sender_independent handle_webrtc_offer "offer"
  ∧ sender_independent handle_webrtc_answer "answer"
  ∧ sender_independent handle_ice_candidate "candidate".
Proof. split_and!; by apply relay_sender_independent. Qed.

(** C3 (as amended).  A [webrtc_offer] whose [session_id] is not registered
    in the participant tracker changes nothing and emits one [error] event,
    to the sender, with the message ['Invalid signaling data']. *)
Theorem offer_unknown_session st c data :
  (∀ sid, sd_session_id data = Some sid → session_participants st !! sid = None) →
  handle_webrtc_offer st c data
  = (st, [emit_error c (error_message InvalidSignalingData)]).
Proof. intros H. apply relay_rejected. auto. Qed.

Lemma offer_unknown_session_witness :
  handle_webrtc_offer st_teacher_joined conn_student offer_missing_session
  = (st_teacher_joined, [emit_error conn_student "Invalid signaling data"]).
Proof.
  apply (offer_unknown_session st_teacher_joined conn_student offer_missing_session).
  intros sid Hsid. injection Hsid as <-. vm_compute. reflexivity.
Defined.

(** C3 (as stated) fails: for the session id ['S_missing'], which the
    tracker does not know, the sender is told ['Invalid signaling data'],
    the message of [InvalidSignalingData], and not ['Session not found']. *)
Lemma offer_unknown_session_is_not_SessionNotFound :
  session_participants st_teacher_joined !! "S_missing" = None
  ∧ (handle_webrtc_offer st_teacher_joined conn_student offer_missing_session).2
    = [emit_error conn_student (error_message InvalidSignalingData)]
  ∧ ¬ In (emit_error conn_student (error_message SessionNotFound))
         (handle_webrtc_offer st_teacher_joined conn_student offer_missing_session).2.
Proof.
  split_and!; [vm_compute; reflexivity | vm_compute; reflexivity |].
  vm_compute. intros [E|[]]. discriminate E.
Qed.

(** * Identity checks *)

Lemma relay_never_asks_for_login kind field st c data :
  ¬ In (emit_error c (error_message AuthenticationRequired))
       (relay kind field st c data).2.
Proof.
  unfold relay, emit_error, emit_self, emit_room.
  repeat case_match; simpl; intros [E|[]]; discriminate E.
Qed.

(** C4 (as amended).  A [join_session] event from a connection without an
    established identity changes nothing and emits one [error] event, to the
    sender, with the message ['Authentication required'].  The handlers of
    [leave_session], [webrtc_offer], [webrtc_answer], [ice_candidate] and
    [chat_message] never send that error, whatever the connection. *)
Theorem join_requires_identity st c data now :
  session c = None →
  handle_join_session st c data now
  = (st, [emit_error c (error_message AuthenticationRequired)])
  ∧ (∀ d, ¬ In (emit_error c (error_message AuthenticationRequired))
               (handle_leave_session st c d).2)
  ∧ (∀ d, ¬ In (emit_error c (error_message AuthenticationRequired))
               (handle_webrtc_offer st c d).2)
  ∧ (∀ d, ¬ In (emit_error c (error_message AuthenticationRequired))
               (handle_webrtc_answer st c d).2)
  ∧ (∀ d, ¬ In (emit_error c (error_message AuthenticationRequired))
               (handle_ice_candidate st c d).2)
  ∧ (∀ d, ¬ In (emit_error c (error_message AuthenticationRequired))
               (handle_chat_message st c d).2).
Proof.
  intros Hc. split_and!.
  - unfold handle_join_session. by rewrite Hc.
  - intros d. unfold handle_leave_session, emit_error, emit_self, emit_room,
      session_ended.
    repeat case_match; simpl; intros E;
      repeat (destruct E as [E|E]; try discriminate E); done.
  - intros d. apply relay_never_asks_for_login.
  - intros d. apply relay_never_asks_for_login.
  - intros d. apply relay_never_asks_for_login.
  - intros d. unfold handle_chat_message, emit_error, emit_self, emit_room.
    repeat case_match; simpl; intros E;
      repeat (destruct E as [E|E]; try discriminate E); done.
Qed.

Lemma join_requires_identity_witness :
  handle_join_session st_teacher_joined conn_anonymous join_S1 "2024-01-01T10:00:09"
  = (st_teacher_joined, [emit_error conn_anonymous "Authentication required"]).
Proof.
  apply (join_requires_identity st_teacher_joined conn_anonymous join_S1
           "2024-01-01T10:00:09").
  reflexivity.
Defined.

(** C4 (as stated) fails: a connection that never logged in sends a
    [webrtc_offer] and the teacher's transport handle receives it, with no
    error to the sender; the same connection sends [leave_session] naming
    the teacher's user id and the teacher's membership is removed and the
    session ended; its [chat_message] is broadcast to the room. *)
Lemma anonymous_events_take_effect :
  session conn_anonymous = None
  ∧ handle_webrtc_offer st_teacher_joined conn_anonymous offer_to_teacher
    = (st_teacher_joined,
       [emit_room "webrtc_offer" (relay_payload "offer" offer_to_teacher) "sid-T1"])
  ∧ session_participants st_teacher_joined !! S1
    = Some [("T1", mkParticipant "teacher" "Asha" "sid-T1" "2024-01-01T10:00:05")]
  ∧ session_participants
      (handle_leave_session st_teacher_joined conn_anonymous
         (mkLeaveData (Some S1) (Some "T1"))).1 !! S1 = Some []
  ∧ (handle_leave_session st_teacher_joined conn_anonymous
       (mkLeaveData (Some S1) (Some "T1"))).2
    = [emit_room "user_left" (user_left_payload "T1" 0) S1; session_ended S1]
  ∧ (handle_chat_message st_teacher_joined conn_anonymous
       (mkChatData (Some S1) [("message", PStr "hi")])).2
    = [emit_room "chat_message"
         (PDict [("session_id", PStr S1); ("message", PStr "hi")]) S1].
Proof. split_and!; reflexivity. Qed.

(** * Unknown relay targets *)




(** * Joining again *)



(** * Leaving without a membership *)

(** C7.  When user [uid] has no membership in session [sid], a
    [leave_session] event for [(sid, uid)] leaves the participant tracker,
    the room registry and the pending timers as they were (so every
    participant count is unchanged) and emits nothing: no [user_left] and no
    [session_ended]. *)
Theorem leave_non_member_noop st c data sid uid :
  ld_session_id data = Some sid →
  leave_user_id c data = Some uid →
  ¬ member st sid uid →
  let r := handle_leave_session st c data in
  session_participants r.1 = session_participants st
  ∧ active_sessions r.1 = active_sessions st
  ∧ timers r.1 = timers st
  ∧ count r.1 sid = count st sid
  ∧ r.2 = [].
Proof.
  intros Hsid Huid Hnm r.
  destruct (leave_not_found st c data) as [rooms Hr].
  { intros sid' uid' Hsid' Huid'. congruence. }
  subst r. rewrite Hr. unfold count. simpl. done.
Qed.

(** The student, who never joined [S1], sends [leave_session] for it. *)
Lemma leave_non_member_noop_witness :
  let r := handle_leave_session st_teacher_joined conn_student leave_S1 in
  session_participants r.1 = session_participants st_teacher_joined
  ∧ active_sessions r.1 = active_sessions st_teacher_joined
  ∧ count r.1 S1 = 1
  ∧ r.2 = [].
Proof.
  intros r.
  destruct (leave_non_member_noop st_teacher_joined conn_student leave_S1 S1 "U1")
    as (Htr & Hreg & _ & Hcount & Hout).
  - reflexivity.
  - reflexivity.
  - no_such_member.
  - split_and!; [exact Htr | exact Hreg | | exact Hout].
    subst r. rewrite Hcount. vm_compute. reflexivity.
Defined.

(** * Registry and tracker *)

(** C8.  In every state reachable by logins, session starts, joins, leaves,
    relays, chats and timer-driven cleanups, every session id with an entry
    in the participant tracker (hence every session in which some user holds
    a membership) is present in the room registry; and [cleanup_session]
    leaves neither a registry entry nor a tracker entry for its session. *)
Theorem tracked_sessions_are_registered st :
  reachable st →
  (∀ sid, is_Some (session_participants st !! sid) →
          is_Some (active_sessions st !! sid))
  ∧ (∀ sid uid, member st sid uid → is_Some (active_sessions st !! sid))
  ∧ (∀ sid, active_sessions (cleanup_session sid st) !! sid = None
            ∧ session_participants (cleanup_session sid st) !! sid = None).
Proof.
  intros Hreach. apply reachable_Inv in Hreach as [H1 _ _ _].
  split_and!.
  - exact H1.
  - intros sid uid (d & p & Hd & _). apply H1. by rewrite Hd.
  - intros sid. rewrite cleanup_session_active, cleanup_session_participants.
    by rewrite !lookup_delete_eq.
Qed.

Lemma tracked_sessions_are_registered_witness :
  is_Some (active_sessions st_teacher_joined !! S1)
  ∧ active_sessions (cleanup_session S1 st_teacher_joined) !! S1 = None
  ∧ session_participants (cleanup_session S1 st_teacher_joined) !! S1 = None.
Proof.
  destruct (tracked_sessions_are_registered st_teacher_joined) as (H1 & _ & H3).
  - apply reachable_run, reachable_init.
  - split; [|exact (H3 S1)].
    apply (H1 S1). vm_compute. eexists. reflexivity.
Defined.

(** * The [participants] list of a registry entry *)

Lemma join_counts_from_tracker st c data now e :
  let r := handle_join_session st c data now in
  In e r.2 → event e ≠ "error" →
  ∃ s sid,
    session c = Some s ∧ jd_session_id data = Some sid
    ∧ (payload e = user_joined_payload s (count r.1 sid)
       ∨ payload e
         = session_info_payload sid (default [] (session_participants r.1 !! sid))).
Proof.
  intros r. subst r.
  destruct (session c) as [s|] eqn:Hs;
    [|unfold handle_join_session; rewrite Hs; simpl; by intros [<-|[]]].
  destruct (jd_session_id data) as [sid|] eqn:Hsid;
    [|unfold handle_join_session; rewrite Hs, Hsid; simpl; by intros [<-|[]]].
  destruct (decide (is_Some (active_sessions st !! sid))) as [Hreg|Hreg];
    [|unfold handle_join_session; rewrite Hs, Hsid;
      rewrite bool_decide_false by done; simpl; by intros [<-|[]]].
  rewrite (join_accepted st c data now s sid Hs Hsid Hreg).
  intros HIn _. exists s, sid. unfold count.
  cbn [fst snd session_participants In] in *.
  rewrite lookup_insert_eq. cbn [default].
  destruct HIn as [<-|[<-|[]]]; simpl; auto.
Qed.

Lemma leave_counts_from_tracker st c data e :
  let r := handle_leave_session st c data in
  In e r.2 → event e = "user_left" →
  ∃ sid uid,
    ld_session_id data = Some sid ∧ leave_user_id c data = Some uid
    ∧ payload e = user_left_payload uid (count r.1 sid).
Proof.
  intros r. subst r. unfold handle_leave_session.
  destruct (truthy (ld_session_id data)) eqn:Hts; simpl; [|by intros []].
  destruct (truthy (leave_user_id c data)) eqn:Htu; simpl; [|by intros []].
  destruct (ld_session_id data) as [sid|] eqn:Hsid; [|done].
  destruct (leave_user_id c data) as [uid|] eqn:Huid; [|done].
  simpl. destruct (session_participants st !! sid) as [d|] eqn:Hd; [|by intros []].
  destruct (PyDict.mem uid d) eqn:Hm; [|by intros []].
  assert (∀ st', session_participants st' !! sid = Some (PyDict.del uid d) →
                 count st' sid = PyDict.len (PyDict.del uid d)) as Hcount.
  { intros st' Hst'. unfold count. by rewrite Hst'. }
  destruct (PyDict.len (PyDict.del uid d) =? 0)%nat; simpl.
  - destruct (active_sessions st !! sid) as [s|]; simpl.
    + intros [<-|[<-|[]]] Hev; [|discriminate Hev].
      exists sid, uid. rewrite Hcount by apply lookup_insert_eq. done.
    + intros [<-|[]] _.
      exists sid, uid. rewrite Hcount by apply lookup_insert_eq. done.
  - intros [<-|[]] _.
    exists sid, uid. rewrite Hcount by apply lookup_insert_eq. done.
Qed.

(** C10.  In every reachable state the [participants] list of every
    room-registry entry is the empty list it was created with: no join,
    leave, relay, chat or cleanup writes it.  The participant counts the
    handlers send ([user_joined], [session_info], [user_left]) are the length
    of the session's dictionary in the participant tracker. *)
Theorem registry_participants_stay_empty st :
  reachable st →
  (∀ sid s, active_sessions st !! sid = Some s → participants s = [])
  ∧ (∀ c data now e,
       let r := handle_join_session st c data now in
       In e r.2 → event e ≠ "error" →
       ∃ s sid,
         session c = Some s ∧ jd_session_id data = Some sid
         ∧ (payload e = user_joined_payload s (count r.1 sid)
            ∨ payload e
              = session_info_payload sid
                  (default [] (session_participants r.1 !! sid))))
  ∧ (∀ c data e,
       let r := handle_leave_session st c data in
       In e r.2 → event e = "user_left" →
       ∃ sid uid,
         ld_session_id data = Some sid ∧ leave_user_id c data = Some uid
         ∧ payload e = user_left_payload uid (count r.1 sid)).
Proof.
  intros Hreach. apply reachable_Inv in Hreach as [_ H2 _ _].
  split_and!.
  - exact H2.
  - intros c data now e. apply join_counts_from_tracker.
  - intros c data e. apply leave_counts_from_tracker.
Qed.

(** After the teacher has joined [S1] and the student has joined too, the
    registry entry of [S1] still lists no participants while the tracker
    counts two. *)
Lemma registry_participants_stay_empty_witness :
  let st := (run st_teacher_joined
               [EvJoin conn_student join_S1 "2024-01-01T10:00:07"]).1 in
  (participants <$> active_sessions st !! S1) = Some []
  ∧ count st S1 = 2.
Proof.
  intros st.
  destruct (registry_participants_stay_empty st) as (H & _ & _).
  - apply reachable_run, reachable_run, reachable_init.
  - split; [|vm_compute; reflexivity].
    destruct (active_sessions st !! S1) as [s|] eqn:Hs.
    + simpl. f_equal. exact (H S1 s Hs).
    + vm_compute in Hs. discriminate Hs.
Defined.

(** * The scenario of the specification

    Start [S1] for lecture [L1] and teacher [T1]; the teacher joins (count
    1); student [U1] joins (count 2, [session_info] to the student,
    [user_joined] to the room); [U1] sends a [webrtc_offer] for the teacher,
    which reaches the teacher's handle with [from_user_id = U1]; [U1] leaves
    (count 1, session still active); the teacher leaves (count 0,
    [session_ended], cleanup pending). *)
Example specification_scenario :
  let st2 := (run st_teacher_joined
                [EvJoin conn_student join_S1 "2024-01-01T10:00:07"]).1 in
  let st3 := (handle_leave_session st2 conn_student leave_S1).1 in
  let r4 := handle_leave_session st3 conn_teacher leave_S1 in
  count st_teacher_joined S1 = 1
  ∧ count st2 S1 = 2
  ∧ (handle_webrtc_offer st2 conn_student offer_to_teacher).2
    = [mkEmit "webrtc_offer"
         (PDict [("from_user_id", PStr "U1");
                 ("offer", PDict [("sdp", PStr "v=0")])])
         "sid-T1" None]
  ∧ count st3 S1 = 1
  ∧ (status <$> active_sessions st3 !! S1) = Some "active"
  ∧ count r4.1 S1 = 0
  ∧ (status <$> active_sessions r4.1 !! S1) = Some "ended"
  ∧ count_session_ended S1 r4.2 = 1
  ∧ timers r4.1 = [mkTimer 5%Q S1].
Proof. split_and!; vm_compute; reflexivity. Qed.

(** * Access control *)

Lemma logout_not_online uid st : uid ≠ "" → uid ∉ online_users (logout uid st).
Proof.
  intros Hu. unfold logout. apply String.eqb_neq in Hu. rewrite Hu. simpl.
  case_bool_decide as Hin; simpl; [|exact Hin].
  intros [_ Hn]%elem_of_difference. apply Hn. by apply elem_of_singleton.
Qed.

Lemma session_offline_after_logout st s :
  has_user_id (Some s) = true →
  session_online (logout (s_user_id s) st) (Some s) = false.
Proof.
  simpl. intros Hu. apply bool_decide_eq_false, logout_not_online.
  intros E. rewrite E in Hu. discriminate Hu.
Qed.

(** What the gates that consult [online_users] answer to a session whose
    user is not in it. *)
Lemma offline_session_denied st sess h :
  has_user_id sess = false ∨ session_online st sess = false →
  (∃ m, login_required st sess = to_login m)
  ∧ (∃ m, teacher_required st sess = to_login m)
  ∧ (∃ m, student_required st sess = to_login m)
  ∧ (∃ m, admin_required st sess = to_login m)
  ∧ (∃ c m, api_teacher_required st sess = (Some (json_error c m), sess))
  ∧ (∃ m s', api_auth_required st sess h = (Some (json_error 401 m), s')).
Proof.
  intros H.
  unfold login_required, teacher_required, student_required, admin_required,
    api_teacher_required, api_auth_required, validate_token.
  destruct (has_user_id sess) eqn:Hid; simpl.
  - destruct H as [H|H]; [done|]. rewrite H. simpl.
    destruct (session_type_is "teacher" sess),
             (session_type_is "student" sess),
             (session_type_is "admin" sess); simpl;
      split_and!; eauto.
  - split_and!; eauto.
    destruct h as [h|]; simpl; [|eauto].
    destruct (negb (String.eqb h "") && String.prefix "Bearer " h); eauto.
Qed.

(** X1.  After [logout], a request that still carries the old session is
    turned away by every gate that consults [online_users]: the page
    decorators redirect to the login page and clear the session,
    [api_teacher_required] and [api_auth_required] answer with an error. *)
Theorem logged_out_session_denied st s now h :
  let st' := (api_logout st (Some s) now).1.1 in
  (api_logout st (Some s) now).1.2 = None
  ∧ (∃ m, login_required st' (Some s) = to_login m)
  ∧ (∃ m, teacher_required st' (Some s) = to_login m)
  ∧ (∃ m, student_required st' (Some s) = to_login m)
  ∧ (∃ m, admin_required st' (Some s) = to_login m)
  ∧ (∃ c m, api_teacher_required st' (Some s) = (Some (json_error c m), Some s))
  ∧ (∃ m s', api_auth_required st' (Some s) h = (Some (json_error 401 m), s')).
Proof.
  intros st'. split; [done|].
  apply offline_session_denied.
  destruct (has_user_id (Some s)) eqn:Hid; [right|by left].
  by apply session_offline_after_logout.
Qed.

(** X2.  [force_logout] by an admin session removes the target from
    [online_users]; a student removed this way is redirected to the login
    page by [student_required], but [api_student_required], which does not
    consult [online_users], still lets the same session through. *)
Theorem force_logout_spares_student_api st caller s :
  session_type_is "admin" caller = true →
  s_user_type s = "student" →
  s_user_id s ≠ "" →
  let st' := (force_logout st caller (Some (s_user_id s))).1 in
  (s_user_id s ∉ online_users st')
  ∧ student_required st' (Some s) = to_login "Session expired. Please log in again."
  ∧ api_student_required st' (Some s) = (None, Some s).
Proof.
  intros Hadmin Htype Hid st'.
  assert (s_user_id s ∉ online_users st') as Hoff.
  { subst st'. unfold force_logout. rewrite Hadmin. simpl.
    apply String.eqb_neq in Hid. rewrite Hid. simpl.
    case_bool_decide as Hin; simpl; [|exact Hin].
    intros [_ Hn]%elem_of_difference. apply Hn. by apply elem_of_singleton. }
  split; [done|].
  unfold student_required, api_student_required. simpl.
  apply String.eqb_neq in Hid. rewrite Hid, Htype. simpl.
  by rewrite bool_decide_false.
Qed.

Lemma force_logout_spares_student_api_witness :
  let st' := (force_logout (login_ok student st_teacher_joined)
                (Some admin_session) (Some "U1")).1 in
  ("U1" ∈ online_users (login_ok student st_teacher_joined))
  ∧ ("U1" ∉ online_users st')
  ∧ api_student_required st' (Some student) = (None, Some student).
Proof.
  intros st'.
  destruct (force_logout_spares_student_api (login_ok student st_teacher_joined)
              (Some admin_session) student)
    as (Hoff & _ & Hapi).
  - reflexivity.
  - reflexivity.
  - discriminate.
  - split_and!; [|exact Hoff|exact Hapi].
    unfold login_ok. simpl. apply elem_of_union_l. by apply elem_of_singleton.
Defined.

(** X3.  [api_auth_required] never admits a request on the strength of its
    [Authorization] header: it lets a request through exactly when the
    session carries a non-empty user id that is in [online_users], and its
    answer does not depend on the header. *)
Theorem api_auth_required_ignores_header st sess h :
  api_auth_required st sess h = api_auth_required st sess None
  ∧ ((api_auth_required st sess h).1 = None
     ↔ has_user_id sess = true ∧ session_online st sess = true).
Proof.
  unfold api_auth_required, validate_token. simpl.
  destruct (has_user_id sess), (session_online st sess); simpl;
    (split; [by repeat case_match|]);
    repeat case_match; simpl; split; (try done); intros [? ?]; done.
Qed.

(** * Starting a session *)

(** X4.  Whenever [start_live_session] answers with a status other than
    201, it has changed nothing and notified nobody. *)
Theorem start_rejected_changes_nothing st sess lid lec hex now :
  (start_live_session st sess lid lec hex now).2 ≠ 201 →
  (start_live_session st sess lid lec hex now).1 = (st, []).
Proof.
  unfold start_live_session. repeat case_match; simpl; try done.
Qed.

Lemma start_rejected_changes_nothing_witness :
  (start_live_session (login_ok other_teacher st_started) (Some other_teacher)
     (Some "L1") (Some (mkLecture "T1" "Algebra")) "0123456789ab" "2024-01-01T11:00:00")
  = (login_ok other_teacher st_started, [], 403).
Proof.
  pose proof (start_rejected_changes_nothing (login_ok other_teacher st_started)
                (Some other_teacher) (Some "L1")
                (Some (mkLecture "T1" "Algebra")) "0123456789ab"
                "2024-01-01T11:00:00") as H.
  assert ((start_live_session (login_ok other_teacher st_started)
             (Some other_teacher) (Some "L1")
             (Some (mkLecture "T1" "Algebra")) "0123456789ab"
             "2024-01-01T11:00:00").2 = 403) as E by reflexivity.
  destruct (start_live_session (login_ok other_teacher st_started)
              (Some other_teacher) (Some "L1")
              (Some (mkLecture "T1" "Algebra")) "0123456789ab"
              "2024-01-01T11:00:00") as [[st' out] code].
  simpl in H, E. subst code.
  rewrite H by discriminate. reflexivity.
Defined.

(** X5.  [start_live_session] answers 201 only to a session that passes
    [api_teacher_required] and whose user owns the named lecture; it then
    registers exactly one entry, under the id built from the lecture id and
    the first eight characters of the uuid, with status ['active'] and the
    caller as teacher, leaves the participant tracker alone, and sends one
    [live_session_started] to the room ['students']. *)
Theorem start_created st sess lid lec hex now :
  (start_live_session st sess lid lec hex now).2 = 201 →
  ∃ s l lecture,
    sess = Some s ∧ lid = Some l ∧ l ≠ "" ∧ lec = Some lecture
    ∧ api_teacher_required st sess = (None, sess)
    ∧ l_teacher_id lecture = s_user_id s
    ∧ (start_live_session st sess lid lec hex now).1
      = (with_active_sessions
           (<[new_session_id l hex :=
                mkSession l (s_user_id s) (s_user_name s) (l_title lecture)
                          now "active" [] []]> (active_sessions st)) st,
         [live_session_started (new_session_id l hex) l (l_title lecture)
            (s_user_name s)]).
Proof.
  unfold start_live_session, api_teacher_required.
  destruct sess as [s|]; simpl; [|done].
  destruct (String.eqb_spec (s_user_id s) ""); simpl; [done|].
  destruct (String.eqb_spec (s_user_type s) "teacher"); simpl; [|done].
  case_bool_decide; simpl; [|done].
  destruct lid as [l|]; simpl; [|done].
  destruct (String.eqb_spec l ""); simpl; [done|].
  destruct lec as [lecture|]; simpl; [|done].
  destruct (String.eqb_spec (l_teacher_id lecture) (s_user_id s)); simpl; [|done].
  intros _. by exists s, l, lecture.
Qed.

Lemma start_created_witness :
  active_sessions st_started !! S1
  = Some (mkSession "L1" "T1" "Asha" "Algebra" "2024-01-01T10:00:00" "active" [] []).
Proof.
  destruct (start_created (login_ok teacher initial_state) (Some teacher)
              (Some "L1") (Some (mkLecture "T1" "Algebra")) "deadbeefcafe0123"
              "2024-01-01T10:00:00")
    as (s & l & lecture & Hs & Hl & _ & Hlec & _ & _ & Heq).
  - reflexivity.
  - injection Hs as <-. injection Hl as <-. injection Hlec as <-.
    assert (st_started
            = (start_live_session (login_ok teacher initial_state) (Some teacher)
                 (Some "L1") (Some (mkLecture "T1" "Algebra")) "deadbeefcafe0123"
                 "2024-01-01T10:00:00").1.1) as -> by reflexivity.
    rewrite Heq. cbn [fst active_sessions with_active_sessions].
    change S1 with (new_session_id "L1" "deadbeefcafe0123").
    apply lookup_insert_eq.
Defined.

(** * Logging in *)

Section LoginFacts.
Variable get_teacher_by_email : string → option User.
Variable get_student_by_email : string → option User.
Variable check_password_hash : string → string → bool.

(** The two ways a login can go. *)
Lemma login_cases st sess data :
  (∃ c m, (c = 400 ∨ c = 401 ∨ c = 404)
          ∧ login get_teacher_by_email get_student_by_email
              check_password_hash st sess data
            = (st, sess, json_error c m))
  ∨ (∃ s t, lg_user_type data = Some t ∧ s_user_type s = t
            ∧ (t = "teacher" ∨ t = "student" ∨ t = "admin")
            ∧ login get_teacher_by_email get_student_by_email
                check_password_hash st sess data
              = (login_ok s st, Some s, login_success t)).
Proof.
  unfold login, login_user.
  destruct (lg_email data) as [email|];
    [|left; exists 400, "Missing required fields"; auto].
  destruct (lg_password data) as [password|];
    [|left; exists 400, "Missing required fields"; auto].
  destruct (lg_user_type data) as [t|];
    [|left; exists 400, "Missing required fields"; auto].
  destruct (String.eqb_spec t "teacher") as [->|_].
  { destruct (get_teacher_by_email email) as [u|];
      [|left; exists 404, "User not found"; auto].
    destruct (check_password_hash _ _); simpl;
      [|left; exists 401, "Invalid password"; auto].
    right. exists (mkHttpSession (u_id u) "teacher" (u_name u)), "teacher".
    auto. }
  destruct (String.eqb_spec t "student") as [->|_].
  { destruct (get_student_by_email email) as [u|];
      [|left; exists 404, "User not found"; auto].
    destruct (check_password_hash _ _); simpl;
      [|left; exists 401, "Invalid password"; auto].
    right. exists (mkHttpSession (u_id u) "student" (u_name u)), "student".
    split_and!; auto. }
  destruct (String.eqb_spec t "admin") as [->|_];
    [|left; exists 400, "Invalid user type"; auto].
  destruct (_ || _); [left; exists 401, "Invalid admin credentials"; auto|].
  right. exists admin_session, "admin". split_and!; auto.
Qed.


(** X7.  After a successful login the new session, if its user id is not
    empty, passes [login_required] and [api_auth_required], and the gates
    of the role it logged in as. *)
Theorem login_opens_gates st sess data st' s h :
  login get_teacher_by_email get_student_by_email check_password_hash
    st sess data
  = (st', Some s, login_success (s_user_type s)) →
  s_user_id s ≠ "" →
  login_required st' (Some s) = (None, Some s)
  ∧ api_auth_required st' (Some s) h = (None, Some s)
  ∧ (s_user_type s = "teacher" →
     teacher_required st' (Some s) = (None, Some s)
     ∧ api_teacher_required st' (Some s) = (None, Some s))
  ∧ (s_user_type s = "student" →
     student_required st' (Some s) = (None, Some s)
     ∧ api_student_required st' (Some s) = (None, Some s))
  ∧ (s_user_type s = "admin" →
     admin_required st' (Some s) = (None, Some s)
     ∧ api_admin_required st' (Some s) = (None, Some s)).
Proof.
  intros Hlogin Hid.
  assert (s_user_id s ∈ online_users st') as Hon.
  { destruct (login_cases st sess data)
      as [(c & m & _ & E)|(s0 & t & _ & _ & _ & E)]; rewrite E in Hlogin.
    - discriminate Hlogin.
    - injection Hlogin as <- <- _. simpl.
      apply elem_of_union_l. by apply elem_of_singleton. }
  unfold login_required, api_auth_required, teacher_required,
    api_teacher_required, student_required, api_student_required,
    admin_required, api_admin_required.
  simpl. apply String.eqb_neq in Hid. rewrite Hid. simpl.
  rewrite bool_decide_true by done. simpl.
  split_and!; try done; intros ->; done.
Qed.

(** X8.  Logging in and then out again restores the state, provided the
    user was not in [online_users] before and the user id is not empty. *)
Theorem login_logout_round_trip st sess data st' s now :
  login get_teacher_by_email get_student_by_email check_password_hash
    st sess data
  = (st', Some s, login_success (s_user_type s)) →
  s_user_id s ≠ "" →
  s_user_id s ∉ online_users st →
  (api_logout st' (Some s) now).1 = (st, None).
Proof.
  intros Hlogin Hid Hoff.
  destruct (login_cases st sess data)
    as [(c & m & _ & E)|(s0 & t & _ & _ & _ & E)]; rewrite E in Hlogin.
  { discriminate Hlogin. }
  injection Hlogin as <- <- _.
  unfold api_logout, logout, login_ok. simpl.
  apply String.eqb_neq in Hid. rewrite Hid. simpl.
  rewrite bool_decide_true by (apply elem_of_union_l; by apply elem_of_singleton).
  f_equal. destruct st as [reg trk onl rms tms]. unfold with_online_users.
  simpl in *.
  f_equal. apply set_eq. intros x.
  rewrite elem_of_difference, elem_of_union, elem_of_singleton.
  split; [tauto|]. intros Hx. split; [by right|]. by intros ->.
Qed.

End LoginFacts.

Lemma login_opens_gates_witness :
  let r := login teachers_table students_table toy_check_hash initial_state None
             (mkLoginData (Some "asha@school.example") (Some "secret") (Some "teacher")) in
  r.1.2 = Some teacher
  ∧ api_teacher_required r.1.1 (Some teacher) = (None, Some teacher).
Proof.
  intros r.
  destruct (login_opens_gates teachers_table students_table toy_check_hash
              initial_state None
              (mkLoginData (Some "asha@school.example") (Some "secret") (Some "teacher"))
              r.1.1 teacher None)
    as (_ & _ & Ht & _).
  - reflexivity.
  - discriminate.
  - split; [reflexivity|]. exact (proj2 (Ht eq_refl)).
Defined.

Lemma login_logout_round_trip_witness :
  (api_logout
     (login teachers_table students_table toy_check_hash initial_state None
        (mkLoginData (Some "asha@school.example") (Some "secret") (Some "teacher"))).1.1
     (Some teacher) "2024-01-01T12:00:00").1
  = (initial_state, None).
Proof.
  apply (login_logout_round_trip teachers_table students_table toy_check_hash
           initial_state None
           (mkLoginData (Some "asha@school.example") (Some "secret") (Some "teacher"))).
  - reflexivity.
  - discriminate.
  - simpl. apply not_elem_of_empty.
Defined.

(** X9.  A login with [user_type = 'admin'] never consults the database or
    the password hash: whatever they are, it succeeds exactly when the
    e-mail address and the password are the two built-in strings, and it
    then stores the built-in admin session. *)
Theorem admin_login_is_built_in
  (teachers1 students1 teachers2 students2 : string → option User)
  (hash1 hash2 : string → string → bool) st sess email password :
  let data := mkLoginData (Some email) (Some password) (Some "admin") in
  login teachers1 students1 hash1 st sess data
  = login teachers2 students2 hash2 st sess data
  ∧ (login teachers1 students1 hash1 st sess data
     = (login_ok admin_session st, Some admin_session, login_success "admin")
     ↔ email = "Admin@gmail.com" ∧ password = "Admin@#1234").
Proof.
  simpl. unfold login. simpl. split; [done|].
  destruct (String.eqb_spec email "Admin@gmail.com") as [->|He],
           (String.eqb_spec password "Admin@#1234") as [->|Hp]; simpl;
    split; try done; try (intros [? ?]; done).
Qed.

(** * Registry entries *)

Lemma with_status_same s : status s = "ended" → with_status "ended" s = s.
Proof. destruct s. simpl. by intros ->. Qed.


Lemma join_registry st c data now :
  active_sessions (handle_join_session st c data now).1 = active_sessions st.
Proof.
  destruct (session c) as [u|] eqn:Hu;
    [|unfold handle_join_session; by rewrite Hu].
  destruct (jd_session_id data) as [k|] eqn:Hk;
    [|unfold handle_join_session; by rewrite Hu, Hk].
  destruct (decide (is_Some (active_sessions st !! k))) as [Hreg|Hreg];
    [|unfold handle_join_session; rewrite Hu, Hk;
      by rewrite bool_decide_false by done].
  by rewrite (join_accepted st c data now u k Hu Hk Hreg).
Qed.

Lemma leave_registry st c data :
  active_sessions (handle_leave_session st c data).1 = active_sessions st
  ∨ ∃ k s0, active_sessions st !! k = Some s0
            ∧ active_sessions (handle_leave_session st c data).1
              = <[k := with_status "ended" s0]> (active_sessions st).
Proof.
  unfold handle_leave_session.
  destruct (negb (truthy (ld_session_id data))
            || negb (truthy (leave_user_id c data))); [by left|].
  destruct (ld_session_id data) as [k|]; [|by left].
  destruct (leave_user_id c data) as [uid|]; [|by left].
  simpl. destruct (session_participants st !! k) as [d|]; [|by left].
  destruct (PyDict.mem uid d); [|by left].
  destruct (PyDict.len (PyDict.del uid d) =? 0)%nat; [|by left].
  simpl. destruct (active_sessions st !! k) as [s0|] eqn:Hk; [|by left].
  right. by exists k, s0.
Qed.

(** How one event other than a start changes the registry: not at all, or
    the status of one entry becomes ['ended'], or a timer deletes an entry. *)
Lemma step_registry st ev :
  is_start ev = false →
  active_sessions (step st ev).1 = active_sessions st
  ∨ (∃ k s0, active_sessions st !! k = Some s0
             ∧ active_sessions (step st ev).1
               = <[k := with_status "ended" s0]> (active_sessions st))
  ∨ (∃ k, is_timer ev = true
          ∧ active_sessions (step st ev).1 = delete k (active_sessions st)).
Proof.
  intros Hev. destruct ev; simpl in *; try discriminate Hev.
  - by left.
  - left. unfold logout. by case_match.
  - left. apply join_registry.
  - destruct (leave_registry st c data) as [H|H]; [by left|right; by left].
  - left. unfold handle_webrtc_offer. by rewrite relay_state.
  - left. unfold handle_webrtc_answer. by rewrite relay_state.
  - left. unfold handle_ice_candidate. by rewrite relay_state.
  - left. by rewrite chat_state.
  - unfold fire_timer. destruct (timers st !! n) as [t|]; [|by left].
    right. right. exists (target t). by rewrite cleanup_session_active.
Qed.

Lemma step_keeps_ended st ev sid s :
  status s = "ended" →
  is_start ev = false →
  active_sessions st !! sid = Some s ∨ active_sessions st !! sid = None →
  (active_sessions (step st ev).1 !! sid = Some s
   ∨ active_sessions (step st ev).1 !! sid = None)
  ∧ (is_timer ev = false → active_sessions st !! sid = Some s →
     active_sessions (step st ev).1 !! sid = Some s).
Proof.
  intros Hst Hev Hs.
  destruct (step_registry st ev Hev)
    as [->|[(k & s0 & Hk & ->)|(k & Ht & ->)]].
  - done.
  - destruct (decide (k = sid)) as [->|Hne].
    + rewrite lookup_insert_eq.
      destruct Hs as [Hs|Hs]; [|congruence].
      assert (s0 = s) as -> by congruence.
      rewrite with_status_same by done. auto.
    + rewrite lookup_insert_ne by done. auto.
  - split; [|congruence].
    destruct (decide (k = sid)) as [->|Hne].
    + right. apply lookup_delete_eq.
    + rewrite lookup_delete_ne by done. done.
Qed.

Lemma run_keeps_ended st evs sid s :
  status s = "ended" →
  existsb is_start evs = false →
  active_sessions st !! sid = Some s ∨ active_sessions st !! sid = None →
  (active_sessions (run st evs).1 !! sid = Some s
   ∨ active_sessions (run st evs).1 !! sid = None)
  ∧ (existsb is_timer evs = false → active_sessions st !! sid = Some s →
     active_sessions (run st evs).1 !! sid = Some s).
Proof.
  intros Hst. revert st.
  induction evs as [|ev rest IH]; intros st Hevs Hs; simpl in *; [done|].
  apply orb_false_iff in Hevs as [Hev Hrest].
  destruct (step_keeps_ended st ev sid s Hst Hev Hs) as [H1 H2].
  destruct (step st ev) as [st1 out1]. simpl in *.
  destruct (IH st1 Hrest H1) as [G1 G2].
  destruct (run st1 rest) as [st2 out2]. simpl in *.
  split; [done|]. intros [Ht Hts]%orb_false_iff Hsome. auto.
Qed.

(** X10.  Once the status of a session is ['ended'] it stays so: no
    sequence of logins, logouts, joins, leaves, relays, chats and timers
    changes any field of its registry entry; the entry is either still the
    same or has been deleted by a cleanup timer.  In particular a join to an
    ended session does not make it ['active'] again. *)
Theorem ended_entry_is_frozen st evs sid s :
  active_sessions st !! sid = Some s →
  status s = "ended" →
  existsb is_start evs = false →
  active_sessions (run st evs).1 !! sid = Some s
  ∨ (active_sessions (run st evs).1 !! sid = None ∧ existsb is_timer evs = true).
Proof.
  intros Hs Hst Hevs.
  destruct (run_keeps_ended st evs sid s Hst Hevs (or_introl Hs)) as [H1 H2].
  destruct (existsb is_timer evs) eqn:Ht.
  - destruct H1; auto.
  - left. auto.
Qed.

(** The teacher comes back to the ended [S1] and the student joins too:
    the status is still ['ended']. *)
Lemma ended_entry_is_frozen_witness :
  (status <$> active_sessions
     (run st_ended [EvJoin conn_teacher join_S1 "2024-01-01T10:00:07";
                    EvJoin conn_student join_S1 "2024-01-01T10:00:08"]).1 !! S1)
  = Some "ended".
Proof.
  destruct (ended_entry_is_frozen st_ended
              [EvJoin conn_teacher join_S1 "2024-01-01T10:00:07";
               EvJoin conn_student join_S1 "2024-01-01T10:00:08"] S1
              (mkSession "L1" "T1" "Asha" "Algebra" "2024-01-01T10:00:00"
                         "ended" [] []))
    as [H|[_ H]].
  - reflexivity.
  - reflexivity.
  - reflexivity.
  - rewrite H. reflexivity.
  - discriminate H.
Defined.




(** * Looking a session up by its lecture *)

Lemma find_session_by_lecture_cases items lecture :
  (∃ sid s, (sid, s) ∈ items ∧ lecture_id s = lecture ∧ status s = "active"
            ∧ find_session_by_lecture items lecture
              = RJson 200 [("success", JBool true); ("session_id", JStr sid)])
  ∨ (find_session_by_lecture items lecture
     = json_error 404 "No active session for this lecture"
     ∧ ∀ sid s, (sid, s) ∈ items → lecture_id s = lecture → status s ≠ "active").
Proof.
  induction items as [|[sid s] rest IH]; simpl.
  { right. split; [done|]. intros k x Hin. by apply elem_of_nil in Hin. }
  destruct (String.eqb_spec (lecture_id s) lecture) as [Hl|Hl]; simpl.
  - destruct (String.eqb_spec (status s) "active") as [Ha|Ha]; simpl.
    + left. exists sid, s. split_and!; try done. left.
    + destruct IH as [(sid' & s' & Hin & ? & ? & ?)|[Hnf Hnone]].
      * left. exists sid', s'. split_and!; try done. by right.
      * right. split; [done|].
        intros k x [[= -> ->]|Hin]%elem_of_cons; [done|]. by eapply Hnone.
  - destruct IH as [(sid' & s' & Hin & ? & ? & ?)|[Hnf Hnone]].
    + left. exists sid', s'. split_and!; try done. by right.
    + right. split; [done|].
      intros k x [[= -> ->]|Hin]%elem_of_cons; [done|]. by eapply Hnone.
Qed.

(** X12.  For a request that passes [api_auth_required],
    [get_session_by_lecture] answers 200 with the id of a registered
    session of that lecture whose status is ['active'], if there is one, and
    404 exactly when the registry holds no active session of the lecture;
    sessions whose status is ['ended'] are never returned. *)
Theorem get_session_by_lecture_correct st sess h items lecture :
  items_of st items →
  (api_auth_required st sess h).1 = None →
  let r := (get_session_by_lecture st sess h items lecture).1 in
  (∃ sid s, active_sessions st !! sid = Some s
            ∧ lecture_id s = lecture ∧ status s = "active"
            ∧ r = RJson 200 [("success", JBool true); ("session_id", JStr sid)])
  ∨ (r = json_error 404 "No active session for this lecture"
     ∧ ∀ sid s, active_sessions st !! sid = Some s →
                lecture_id s = lecture → status s ≠ "active").
Proof.
  intros [_ Hitems] Hgate r. subst r. unfold get_session_by_lecture.
  destruct (api_auth_required st sess h) as [[g|] sess']; [done|]. simpl.
  destruct (find_session_by_lecture_cases items lecture)
    as [(sid & s & Hin & Hl & Ha & ->)|[-> Hnone]].
  - left. exists sid, s. split_and!; try done. by apply Hitems.
  - right. split; [done|]. intros sid s Hs. apply (Hnone sid s). by apply Hitems.
Qed.

Lemma st_ended_registry :
  active_sessions st_ended
  = <[S1 := mkSession "L1" "T1" "Asha" "Algebra" "2024-01-01T10:00:00"
                      "ended" [] []]> ∅.
Proof. reflexivity. Qed.

Lemma st_ended_items :
  items_of st_ended
    [(S1, mkSession "L1" "T1" "Asha" "Algebra" "2024-01-01T10:00:00" "ended" [] [])].
Proof.
  split.
  - simpl. apply NoDup_singleton.
  - intros sid s. rewrite st_ended_registry, list_elem_of_singleton.
    rewrite lookup_insert_Some, lookup_empty. split.
    + intros [= -> ->]. by left.
    + intros [[<- <-]|[_ [=]]]. done.
Qed.

(** After the teacher left [S1] as its last member, the lookup for lecture
    [L1] finds nothing. *)
Lemma get_session_by_lecture_correct_witness :
  (get_session_by_lecture st_ended (Some teacher) None
     [(S1, mkSession "L1" "T1" "Asha" "Algebra" "2024-01-01T10:00:00" "ended" [] [])]
     "L1").1
  = json_error 404 "No active session for this lecture".
Proof.
  destruct (get_session_by_lecture_correct st_ended (Some teacher) None
              [(S1, mkSession "L1" "T1" "Asha" "Algebra" "2024-01-01T10:00:00"
                              "ended" [] [])] "L1")
    as [(sid & s & Hs & _ & Ha & _)|[H _]].
  - exact st_ended_items.
  - reflexivity.
  - exfalso. rewrite st_ended_registry in Hs.
    apply lookup_insert_Some in Hs as [[_ <-]|[_ Hs]]; [discriminate Ha|].
    by rewrite lookup_empty in Hs.
  - exact H.
Defined.

(** X13.  A session whose status is ['ended'] but which has not been
    cleaned up yet is never returned by the lookup by lecture, while the
    student page still renders for it and [join_session] still accepts a
    join to it, recording the membership without an error and without
    touching the registry entry. *)
Theorem ended_session_hidden_but_joinable st sid s c u now :
  active_sessions st !! sid = Some s →
  status s = "ended" →
  session c = Some u →
  let r := handle_join_session st c (mkJoinData (Some sid)) now in
  (∀ items lecture, items_of st items →
     find_session_by_lecture items lecture
     ≠ RJson 200 [("success", JBool true); ("session_id", JStr sid)])
  ∧ (∀ sess, (student_required st sess).1 = None →
       join_session_page st sess sid
       = (RRender "student_live_session.html" (lecture_id s), sess))
  ∧ member r.1 sid (s_user_id u)
  ∧ active_sessions r.1 !! sid = Some s
  ∧ count_event "error" r.2 = 0.
Proof.
  intros Hs Hst Hu r. split_and!.
  - intros items lecture [_ Hitems] Hfound.
    destruct (find_session_by_lecture_cases items lecture)
      as [(sid' & s' & Hin & _ & Ha & E)|[E _]]; rewrite E in Hfound.
    + injection Hfound as ->. apply Hitems in Hin. congruence.
    + discriminate Hfound.
  - intros sess Hgate. unfold join_session_page.
    destruct (student_required st sess) as [g sess'] eqn:Hg. simpl in Hgate.
    subst g. rewrite Hs. simpl.
    unfold student_required, to_login in Hg.
    repeat case_match; congruence.
  - subst r.
    rewrite (join_accepted st c (mkJoinData (Some sid)) now u sid Hu eq_refl)
      by (by rewrite Hs).
    eexists _, _. simpl. split; [apply lookup_insert_eq|apply pd_get_set_eq].
  - subst r. by rewrite join_registry.
  - subst r.
    rewrite (join_accepted st c (mkJoinData (Some sid)) now u sid Hu eq_refl)
      by (by rewrite Hs).
    reflexivity.
Qed.

Lemma ended_session_hidden_but_joinable_witness :
  member (handle_join_session st_ended conn_student join_S1 "2024-01-01T10:00:08").1
    S1 "U1"
  ∧ (status <$> active_sessions
       (handle_join_session st_ended conn_student join_S1 "2024-01-01T10:00:08").1
       !! S1) = Some "ended".
Proof.
  destruct (ended_session_hidden_but_joinable st_ended S1
              (mkSession "L1" "T1" "Asha" "Algebra" "2024-01-01T10:00:00"
                         "ended" [] [])
              conn_student student "2024-01-01T10:00:08")
    as (_ & _ & Hm & Hreg & _).
  - reflexivity.
  - reflexivity.
  - reflexivity.
  - split; [exact Hm|].
    change join_S1 with (mkJoinData (Some S1)). rewrite Hreg. reflexivity.
Defined.

(** * The session pages *)

(** X14.  After a successful [start_live_session], the management page of
    the new session renders for the teacher who started it, and renders for
    nobody whose user id is different. *)
Theorem manage_session_page_owner_only st s lid lec hex now st' out :
  start_live_session st (Some s) lid lec hex now = (st', out, 201) →
  ∃ l, lid = Some l
       ∧ manage_session_page st' (Some s) (new_session_id l hex)
         = (RRender "teacher_live_session.html" l, Some s)
       ∧ ∀ sess t lecture,
           s_user_id <$> sess ≠ Some (s_user_id s) →
           (manage_session_page st' sess (new_session_id l hex)).1
           ≠ RRender t lecture.
Proof.
  unfold start_live_session. simpl.
  destruct (String.eqb_spec (s_user_id s) "") as [|Hid]; simpl; [done|].
  destruct (String.eqb_spec (s_user_type s) "teacher") as [Hty|]; simpl; [|done].
  case_bool_decide as Hon; simpl; [|done].
  destruct lid as [l|]; simpl; [|done].
  destruct (String.eqb_spec l ""); simpl; [done|].
  destruct lec as [lecture|]; simpl; [|done].
  destruct (String.eqb_spec (l_teacher_id lecture) (s_user_id s)) as [Hown|];
    simpl; [|done].
  intros [= <- _]. exists l. split; [done|].
  unfold manage_session_page, teacher_required, to_login. simpl.
  apply String.eqb_neq in Hid. rewrite Hid, Hty. simpl.
  rewrite bool_decide_true by done. simpl.
  rewrite lookup_insert_eq. simpl. rewrite bool_decide_true by done. simpl.
  split; [done|].
  intros sess t lecture0 Hother.
  destruct (negb (has_user_id sess)); simpl; [done|].
  destruct (negb (session_type_is "teacher" sess)); simpl; [done|].
  destruct (negb (session_online _ sess)); simpl; [done|].
  rewrite bool_decide_false; [done|]. simpl. congruence.
Qed.

Lemma manage_session_page_owner_only_witness :
  manage_session_page st_started (Some teacher) S1
  = (RRender "teacher_live_session.html" "L1", Some teacher)
  ∧ (manage_session_page (login_ok other_teacher st_started)
       (Some other_teacher) S1).1
    = RRedirect "teacher_dashboard" "Access denied.".
Proof.
  destruct (manage_session_page_owner_only (login_ok teacher initial_state)
              teacher (Some "L1") (Some (mkLecture "T1" "Algebra"))
              "deadbeefcafe0123" "2024-01-01T10:00:00" st_started
              [live_session_started S1 "L1" "Algebra" "Asha"])
    as (l & [= <-] & Hown & _).
  - reflexivity.
  - split; [exact Hown|]. reflexivity.
Defined.

(** X15.  The student page of a session renders, for a student who passes
    [student_required], as long as the session is in the registry, whatever
    its status; once [cleanup_session] has run for it, the page renders for
    nobody: every request is redirected. *)
Theorem join_session_page_until_cleanup st sess sid :
  ((student_required st sess).1 = None →
   ∀ s, active_sessions st !! sid = Some s →
        join_session_page st sess sid
        = (RRender "student_live_session.html" (lecture_id s), sess))
  ∧ ∃ endpoint msg,
      (join_session_page (cleanup_session sid st) sess sid).1
      = RRedirect endpoint msg.
Proof.
  unfold join_session_page. split.
  - intros Hgate s Hs.
    destruct (student_required st sess) as [g sess'] eqn:Hg. simpl in Hgate.
    subst g. rewrite Hs. simpl.
    unfold student_required, to_login in Hg. repeat case_match; congruence.
  - rewrite cleanup_session_active, lookup_delete_eq.
    unfold student_required, to_login.
    repeat case_match; simpl; eauto.
Qed.

(** * Cleanup and timers *)

Lemma cleanup_session_closed sid st :
  cleanup_session sid st
  = mkState (delete sid (active_sessions st))
            (delete sid (session_participants st))
            (online_users st) (sio_rooms st) (timers st).
Proof.
  unfold cleanup_session, with_active_sessions, with_session_participants.
  destruct st as [reg trk onl rms tms]. simpl.
  repeat case_bool_decide; simpl in *; f_equal;
    try (symmetry; apply delete_id; by apply eq_None_not_Some).
Qed.

(** X16.  [cleanup_session] touches only the two entries of its own
    session: every other session keeps its registry and tracker entry, and
    [online_users], the rooms and the pending timers are unchanged.  Running
    it twice is the same as running it once, and cleanups of two sessions
    commute. *)
Theorem cleanup_session_local sid sid' st :
  (sid' ≠ sid →
   active_sessions (cleanup_session sid st) !! sid' = active_sessions st !! sid'
   ∧ session_participants (cleanup_session sid st) !! sid'
     = session_participants st !! sid')
  ∧ online_users (cleanup_session sid st) = online_users st
  ∧ sio_rooms (cleanup_session sid st) = sio_rooms st
  ∧ timers (cleanup_session sid st) = timers st
  ∧ cleanup_session sid (cleanup_session sid st) = cleanup_session sid st
  ∧ cleanup_session sid (cleanup_session sid' st)
    = cleanup_session sid' (cleanup_session sid st).
Proof.
  rewrite !cleanup_session_closed. simpl. split_and!; try done.
  - intros Hne. by rewrite !lookup_delete_ne.
  - by rewrite !delete_delete_eq.
  - f_equal; apply delete_delete.
Qed.

Lemma fire_timer_closed n t st :
  timers st !! n = Some t →
  fire_timer n st
  = mkState (delete (target t) (active_sessions st))
            (delete (target t) (session_participants st))
            (online_users st) (sio_rooms st) (delete n (timers st)).
Proof.
  intros Hn. unfold fire_timer. rewrite Hn, cleanup_session_closed. simpl.
  by rewrite delete_take_drop.
Qed.

(** Firing the [n]-th pending timer takes exactly that timer off the
    pending list and cleans its session up; a timer index past the end of
    the list does nothing.  When two timers for the same session are
    pending, the firing of the second changes neither the registry nor the
    tracker any more. *)
Lemma fire_timer_consumes_one n st :
  (∀ t, timers st !! n = Some t →
        timers (fire_timer n st) = delete n (timers st)
        ∧ S (length (timers (fire_timer n st))) = length (timers st)
        ∧ ∀ m t', timers (fire_timer n st) !! m = Some t' →
                  target t' = target t →
                  active_sessions (fire_timer m (fire_timer n st))
                  = active_sessions (fire_timer n st)
                  ∧ session_participants (fire_timer m (fire_timer n st))
                    = session_participants (fire_timer n st))
  ∧ (timers st !! n = None → fire_timer n st = st).
Proof.
  split.
  - intros t Hn. pose proof (fire_timer_closed n t st Hn) as E.
    split_and!.
    + by rewrite E.
    + rewrite E. simpl. rewrite length_delete by done.
      apply lookup_lt_Some in Hn. lia.
    + intros m t' Hm Heq.
      rewrite (fire_timer_closed m t' _ Hm). simpl.
      rewrite E. simpl. rewrite Heq. by rewrite !delete_delete_eq.
  - intros Hn. unfold fire_timer. by rewrite Hn.
Qed.

Lemma count_event_app name out1 out2 :
  count_event name (out1 ++ out2) = count_event name out1 + count_event name out2.
Proof. unfold count_event. by rewrite filter_app, length_app. Qed.

Lemma count_event_nil name : count_event name [] = 0.
Proof. reflexivity. Qed.

Lemma count_event_cons name e out :
  count_event name (e :: out)
  = (if bool_decide (event e = name) then 1 else 0) + count_event name out.
Proof.
  unfold count_event. rewrite filter_cons.
  case_decide; [rewrite bool_decide_true by done|rewrite bool_decide_false by done];
    done.
Qed.

(** Evaluates [count_event] on a log whose event names are literals. *)
Ltac count_events :=
  rewrite ?count_event_cons, ?count_event_nil;
  unfold emit_error, emit_self, emit_others, emit_room, session_ended,
    live_session_started;
  cbn [event];
  repeat first [ rewrite bool_decide_true by reflexivity
               | rewrite bool_decide_false by discriminate ].

Lemma step_timers_count st ev :
  is_timer ev = false →
  length (timers (step st ev).1)
  = length (timers st) + count_event "session_ended" (step st ev).2.
Proof.
  intros Hev. destruct ev; simpl in *; try discriminate Hev.
  - count_events. lia.
  - unfold logout. case_match; simpl; count_events; lia.
  - unfold start_live_session.
    repeat case_match; simpl; count_events; lia.
  - unfold handle_join_session.
    repeat case_match; simpl; count_events; lia.
  - unfold handle_leave_session.
    repeat case_match; simpl; count_events; rewrite ?length_app; simpl; lia.
  - unfold handle_webrtc_offer, relay.
    repeat case_match; simpl; count_events; lia.
  - unfold handle_webrtc_answer, relay.
    repeat case_match; simpl; count_events; lia.
  - unfold handle_ice_candidate, relay.
    repeat case_match; simpl; count_events; lia.
  - unfold handle_chat_message.
    repeat case_match; simpl; count_events; lia.
Qed.

(** X18.  Along any sequence of events in which no timer fires, the number
    of cleanup timers started equals the number of [session_ended]
    broadcasts sent: each ending of a session comes with exactly one timer
    and nothing else starts one. *)
Theorem timers_match_session_ended st evs :
  existsb is_timer evs = false →
  length (timers (run st evs).1)
  = length (timers st) + count_event "session_ended" (run st evs).2.
Proof.
  revert st. induction evs as [|ev rest IH]; intros st Hevs; simpl in *.
  { rewrite count_event_nil. lia. }
  apply orb_false_iff in Hevs as [Hev Hrest].
  pose proof (step_timers_count st ev Hev) as H1.
  destruct (step st ev) as [st1 out1]. simpl in H1.
  specialize (IH st1 Hrest).
  destruct (run st1 rest) as [st2 out2]. simpl in *.
  rewrite count_event_app. lia.
Qed.

Lemma timers_match_session_ended_witness :
  length (timers (run initial_state trace_rejoin).1) = 2
  ∧ count_event "session_ended" (run initial_state trace_rejoin).2 = 2.
Proof.
  pose proof (timers_match_session_ended initial_state trace_rejoin eq_refl) as H.
  assert (count_event "session_ended" (run initial_state trace_rejoin).2 = 2)
    as Hc by (reflexivity).
  split; [|exact Hc]. rewrite H, Hc. reflexivity.
Defined.

(** * Joining and leaving *)

Lemma pd_set_absent {V} k (v : V) d :
  PyDict.mem k d = false → PyDict.set k v d = (d ++ [(k, v)])%list.
Proof.
  unfold PyDict.mem.
  induction d as [|[k' v'] r IH]; simpl; [done|].
  destruct (String.eqb_spec k k'); [done|]. intros Hm. by rewrite IH.
Qed.

Lemma pd_del_set_absent {V} k (v : V) d :
  PyDict.mem k d = false → PyDict.del k (PyDict.set k v d) = d.
Proof.
  unfold PyDict.mem.
  induction d as [|[k' v'] r IH]; simpl.
  - by rewrite String.eqb_refl.
  - destruct (String.eqb_spec k k') as [->|Hne]; [done|]. simpl.
    destruct (String.eqb_spec k k'); [done|]. intros Hm. by rewrite IH.
Qed.

Lemma pd_mem_set {V} k (v : V) d : PyDict.mem k (PyDict.set k v d) = true.
Proof. unfold PyDict.mem. by rewrite pd_get_set_eq. Qed.

Lemma not_member_mem st sid uid :
  ¬ member st sid uid →
  PyDict.mem uid (default [] (session_participants st !! sid)) = false.
Proof.
  intros Hnm. unfold PyDict.mem.
  destruct (session_participants st !! sid) as [d|] eqn:Hd; simpl; [|done].
  destruct (PyDict.get uid d) as [p|] eqn:Hp; [|done].
  exfalso. apply Hnm. by exists d, p.
Qed.

(** X19.  When a user without a membership joins a registered session, the
    user's record is appended after the existing members, whose records and
    order are kept; the participant count grows by one; other sessions are
    not touched; the connection is put into the session's room; the room is
    told [user_joined] with the new count (the sender excepted) and the
    sender gets [session_info] listing all members, the new one last. *)
Theorem join_new_member st c data now u sid :
  session c = Some u →
  jd_session_id data = Some sid →
  is_Some (active_sessions st !! sid) →
  ¬ member st sid (s_user_id u) →
  let d := default [] (session_participants st !! sid) in
  let record := mkParticipant (s_user_type u) (s_user_name u) (request_sid c) now in
  let d' := (d ++ [(s_user_id u, record)])%list in
  let r := handle_join_session st c data now in
  session_participants r.1 !! sid = Some d'
  ∧ count r.1 sid = S (count st sid)
  ∧ (∀ sid', sid' ≠ sid →
       session_participants r.1 !! sid' = session_participants st !! sid')
  ∧ ((sid, request_sid c) ∈ sio_rooms r.1)
  ∧ r.2 = [emit_others c "user_joined" (user_joined_payload u (S (count st sid))) sid;
           emit_self c "session_info" (session_info_payload sid d')].
Proof.
  intros Hu Hsid Hreg Hnm d record d' r. subst r.
  rewrite (join_accepted st c data now u sid Hu Hsid Hreg).
  fold d. fold record.
  rewrite (pd_set_absent _ record d) by (by apply not_member_mem).
  fold d'. unfold count. simpl. rewrite lookup_insert_eq. simpl.
  assert (PyDict.len d' = S (PyDict.len d)) as Hlen.
  { subst d'. unfold PyDict.len. rewrite length_app. simpl. lia. }
  fold d. rewrite Hlen. split_and!; try done.
  - intros sid' Hne. by rewrite lookup_insert_ne.
  - apply elem_of_union_l. by apply elem_of_singleton.
Qed.

(** The student joins [S1] after the teacher. *)
Lemma join_new_member_witness :
  PyDict.keys
    (default [] (session_participants
       (handle_join_session st_teacher_joined conn_student join_S1
          "2024-01-01T10:00:07").1 !! S1))
  = ["T1"; "U1"]
  ∧ count (handle_join_session st_teacher_joined conn_student join_S1
             "2024-01-01T10:00:07").1 S1 = 2.
Proof.
  destruct (join_new_member st_teacher_joined conn_student join_S1
              "2024-01-01T10:00:07" student S1)
    as (Hd & Hc & _).
  - reflexivity.
  - reflexivity.
  - eexists. reflexivity.
  - no_such_member.
  - split.
    + rewrite Hd. reflexivity.
    + rewrite Hc. reflexivity.
Defined.

(** X20.  After [cleanup_session] has run for a session, a join to it is
    rejected with an [error] to the sender and has no effect at all: no
    tracker entry is created again and the connection joins no room. *)
Theorem join_after_cleanup_rejected st sid c now :
  ∃ m, (m = "Authentication required" ∨ m = "Session not found")
       ∧ handle_join_session (cleanup_session sid st) c (mkJoinData (Some sid)) now
         = (cleanup_session sid st, [emit_error c m]).
Proof.
  unfold handle_join_session. cbn [jd_session_id].
  destruct (session c); [|exists "Authentication required"; auto].
  rewrite cleanup_session_active, lookup_delete_eq.
  rewrite bool_decide_false by (by intros [? ?]).
  exists "Session not found". auto.
Qed.

(** X21.  Joining and then leaving again restores the participant tracker:
    when a user without a membership joins a session that has other members
    and the same connection then sends [leave_session], the tracker, the
    registry and the pending timers are exactly as before the join. *)
Theorem join_leave_round_trip st c now u sid d :
  session c = Some u →
  s_user_id u ≠ "" →
  sid ≠ "" →
  is_Some (active_sessions st !! sid) →
  session_participants st !! sid = Some d →
  d ≠ [] →
  ¬ member st sid (s_user_id u) →
  let st1 := (handle_join_session st c (mkJoinData (Some sid)) now).1 in
  let r := handle_leave_session st1 c (mkLeaveData (Some sid) None) in
  session_participants r.1 = session_participants st
  ∧ active_sessions r.1 = active_sessions st
  ∧ timers r.1 = timers st
  ∧ r.2 = [emit_room "user_left" (user_left_payload (s_user_id u) (PyDict.len d)) sid].
Proof.
  intros Hu Hid Hsid Hreg Hd Hne Hnm st1 r.
  pose proof (not_member_mem st sid (s_user_id u) Hnm) as Hmem.
  rewrite Hd in Hmem. simpl in Hmem.
  subst r st1.
  rewrite (join_accepted st c (mkJoinData (Some sid)) now u sid Hu eq_refl Hreg).
  rewrite Hd. simpl.
  set (record := mkParticipant _ _ _ _).
  erewrite (leave_removed _ c (mkLeaveData (Some sid) None) sid (s_user_id u)
              (PyDict.set (s_user_id u) record d));
    [|done| |done|done| |].
  - simpl. rewrite (pd_del_set_absent _ record d Hmem).
    destruct d as [|x d0]; [done|]. simpl.
    rewrite insert_insert_eq, insert_id by done. done.
  - unfold leave_user_id, py_or. simpl. by rewrite Hu.
  - simpl. apply lookup_insert_eq.
  - apply pd_mem_set.
Qed.

(** The student joins [S1], where the teacher is, and leaves again. *)
Lemma join_leave_round_trip_witness :
  session_participants
    (handle_leave_session
       (handle_join_session st_teacher_joined conn_student join_S1
          "2024-01-01T10:00:07").1
       conn_student leave_S1).1
  = session_participants st_teacher_joined.
Proof.
  refine (proj1 (join_leave_round_trip st_teacher_joined conn_student
                   "2024-01-01T10:00:07" student S1
                   [("T1", mkParticipant "teacher" "Asha" "sid-T1"
                             "2024-01-01T10:00:05")] _ _ _ _ _ _ _)).
  - reflexivity.
  - discriminate.
  - discriminate.
  - eexists. reflexivity.
  - reflexivity.
  - discriminate.
  - no_such_member.
Defined.





(** X24.  After an accepted join, a relay message naming the joined user is
    addressed to the connection of that join, whoever sends it: the handle
    stored by the latest join is the one the relay resolves. *)
Theorem relay_after_join st c now u sid sender data :
  session c = Some u →
  s_user_id u ≠ "" →
  sid ≠ "" →
  is_Some (active_sessions st !! sid) →
  sd_session_id data = Some sid →
  sd_target_user_id data = Some (s_user_id u) →
  let st' := (handle_join_session st c (mkJoinData (Some sid)) now).1 in
  handle_webrtc_offer st' sender data
  = (st', [emit_room "webrtc_offer" (relay_payload "offer" data) (request_sid c)])
  ∧ handle_webrtc_answer st' sender data
    = (st', [emit_room "webrtc_answer" (relay_payload "answer" data) (request_sid c)])
  ∧ handle_ice_candidate st' sender data
    = (st', [emit_room "ice_candidate" (relay_payload "candidate" data) (request_sid c)]).
Proof.
  intros Hu Hid Hs Hreg Hsid Htid st'.
  assert (∃ d', session_participants st' !! sid = Some d'
                ∧ PyDict.get (s_user_id u) d'
                  = Some (mkParticipant (s_user_type u) (s_user_name u)
                            (request_sid c) now)) as (d' & Hd' & Hget).
  { subst st'.
    rewrite (join_accepted st c (mkJoinData (Some sid)) now u sid Hu eq_refl Hreg).
    eexists. simpl. split; [apply lookup_insert_eq|apply pd_get_set_eq]. }
  unfold handle_webrtc_offer, handle_webrtc_answer, handle_ice_candidate.
  rewrite !(relay_looked_up _ _ st' sender data sid (s_user_id u) d'
              Hsid Htid Hs Hid Hd').
  by rewrite Hget.
Qed.

(** The teacher joins [S1] again from a second tab; the student's offer now
    goes to the second tab. *)
Lemma relay_after_join_witness :
  (handle_webrtc_offer
     (handle_join_session st_teacher_joined conn_teacher_again join_S1
        "2024-01-01T10:00:09").1
     conn_student offer_to_teacher).2
  = [emit_room "webrtc_offer" (relay_payload "offer" offer_to_teacher) "sid-T1-tab2"].
Proof.
  destruct (relay_after_join st_teacher_joined conn_teacher_again
              "2024-01-01T10:00:09" teacher S1 conn_student offer_to_teacher)
    as (H & _).
  - reflexivity.
  - discriminate.
  - discriminate.
  - eexists. reflexivity.
  - reflexivity.
  - reflexivity.
  - change join_S1 with (mkJoinData (Some S1)). rewrite H. reflexivity.
Defined.

(** * Requests that do not move sessions *)

Lemma serve_passive st r :
  passive r = true →
  active_sessions (serve st r).1 = active_sessions st
  ∧ session_participants (serve st r).1 = session_participants st
  ∧ timers (serve st r).1 = timers st
  ∧ count_event "user_joined" (serve st r).2 = 0
  ∧ count_event "user_left" (serve st r).2 = 0
  ∧ count_event "session_ended" (serve st r).2 = 0.
Proof.
  intros Hp. destruct r as [ev|c|c|sess t]; simpl.
  - destruct ev; simpl in *; try discriminate Hp.
    + done.
    + unfold logout. by case_match.
    + unfold handle_webrtc_offer. rewrite relay_state.
      unfold relay. split_and!; try done; repeat case_match; simpl; by count_events.
    + unfold handle_webrtc_answer. rewrite relay_state.
      unfold relay. split_and!; try done; repeat case_match; simpl; by count_events.
    + unfold handle_ice_candidate. rewrite relay_state.
      unfold relay. split_and!; try done; repeat case_match; simpl; by count_events.
    + rewrite chat_state. unfold handle_chat_message.
      split_and!; try done; repeat case_match; simpl; by count_events.
  - unfold handle_connect. destruct (session c); simpl;
      split_and!; try done; by count_events.
  - unfold handle_disconnect. by destruct (session c).
  - unfold force_logout. repeat case_match; simpl; done.
Qed.

(** X25.  No sequence of connects, disconnects, logins, logouts, forced
    logouts, relay messages and chat messages changes the registry, the
    participant tracker or the pending timers, or makes the server send
    [user_joined], [user_left] or [session_ended]: in particular a
    disconnect removes no membership and ends no session. *)
Theorem passive_requests_keep_sessions st rs :
  forallb passive rs = true →
  active_sessions (serve_all st rs).1 = active_sessions st
  ∧ session_participants (serve_all st rs).1 = session_participants st
  ∧ timers (serve_all st rs).1 = timers st
  ∧ count_event "user_joined" (serve_all st rs).2 = 0
  ∧ count_event "user_left" (serve_all st rs).2 = 0
  ∧ count_event "session_ended" (serve_all st rs).2 = 0.
Proof.
  revert st. induction rs as [|r rest IH]; intros st Hrs; simpl in *; [done|].
  apply andb_true_iff in Hrs as [Hr Hrest].
  destruct (serve_passive st r Hr) as (A1 & A2 & A3 & A4 & A5 & A6).
  destruct (serve st r) as [st1 out1]. simpl in *.
  destruct (IH st1 Hrest) as (B1 & B2 & B3 & B4 & B5 & B6).
  destruct (serve_all st1 rest) as [st2 out2]. simpl in *.
  rewrite !count_event_app. split_and!; try congruence; lia.
Qed.

(** The teacher's connection drops while the teacher is the only member of
    [S1]: the membership and the session stay. *)
Lemma passive_requests_keep_sessions_witness :
  let st := (serve_all st_teacher_joined
               [ReqDisconnect conn_teacher;
                ReqForceLogout (Some admin_session) (Some "T1")]).1 in
  count st S1 = 1
  ∧ (status <$> active_sessions st !! S1) = Some "active".
Proof.
  cbv zeta.
  destruct (passive_requests_keep_sessions st_teacher_joined
              [ReqDisconnect conn_teacher;
               ReqForceLogout (Some admin_session) (Some "T1")] eq_refl)
    as (Hreg & Htr & _).
  unfold count. rewrite Hreg, Htr. split; reflexivity.
Defined.

Lemma Inv_serve st r : Inv st → Inv (serve st r).1.
Proof.
  intros HI. destruct r as [ev|c|c|sess t]; simpl.
  - by apply Inv_step.
  - unfold handle_connect. destruct (session c); [|done].
    by apply (Inv_same_dicts st).
  - unfold handle_disconnect. destruct (session c); [|done].
    by apply (Inv_same_dicts st).
  - apply (Inv_same_dicts st); [| |done];
      unfold force_logout; by repeat case_match.
Qed.

(** X26.  In every state reached from the initial one by any sequence of
    requests -- session events, connects, disconnects and forced logouts --
    no user id occurs twice among the members of a session, every tracked
    session is registered, and every registered session id is non-empty. *)
Theorem one_membership_per_user rs :
  let st := (serve_all initial_state rs).1 in
  (∀ sid d, session_participants st !! sid = Some d → NoDup (PyDict.keys d))
  ∧ (∀ sid, is_Some (session_participants st !! sid) →
            is_Some (active_sessions st !! sid))
  ∧ (∀ sid, is_Some (active_sessions st !! sid) → sid ≠ "").
Proof.
  assert (∀ st, Inv st → Inv (serve_all st rs).1) as H.
  { induction rs as [|r rest IH]; intros st HI; simpl; [done|].
    pose proof (Inv_serve st r HI) as H1.
    destruct (serve st r) as [st1 out1]. simpl in H1.
    specialize (IH st1 H1). by destruct (serve_all st1 rest). }
  destruct (H initial_state Inv_initial) as [H1 _ H3 H4]. by split_and!.
Qed.



(** * Agreement between the gates *)

(** X17.  The page gate and the API gate for teachers let the same requests
    through.  [login_required], [api_auth_required] and [validate_session]
    agree too: [validate_session] answers 200 exactly for the requests that
    [login_required] lets through, it reports the user id, type and name of
    the session, and it clears the session exactly when the user id is set
    but no longer in [online_users]. *)
Theorem session_gates_agree st sess h email :
  ((teacher_required st sess).1 = None ↔ (api_teacher_required st sess).1 = None)
  ∧ ((login_required st sess).1 = None ↔ (api_auth_required st sess h).1 = None)
  ∧ ((login_required st sess).1 = None
     ↔ ∃ s, sess = Some s
            ∧ validate_session st sess email
              = (sess, RJson 200 [("valid", JBool true);
                                  ("user_id", JStr (s_user_id s));
                                  ("user_type", JStr (s_user_type s));
                                  ("user_name", JStr (s_user_name s));
                                  ("user_email", JStr email)]))
  ∧ ((validate_session st sess email).1 = None
     ↔ sess = None ∨ (has_user_id sess = true ∧ session_online st sess = false)).
Proof.
  unfold teacher_required, api_teacher_required, login_required,
    validate_session, to_login.
  assert ((api_auth_required st sess h).1 = None
          ↔ has_user_id sess = true ∧ session_online st sess = true) as ->.
  { unfold api_auth_required, validate_token. simpl.
    destruct (has_user_id sess), (session_online st sess); simpl;
      repeat case_match; simpl; split; (try done); intros [? ?]; done. }
  destruct sess as [s|]; simpl.
  - destruct (negb (String.eqb (s_user_id s) "")) eqn:Hid; simpl.
    + destruct (negb (String.eqb (s_user_type s) "teacher")); simpl;
        destruct (bool_decide (s_user_id s ∈ online_users st)); simpl;
        split_and!; split; try done; try (intros [? ?]; done);
        try (intros [? | [? ?]]; done); try (intros _; by right);
        try (intros _; by exists s); intros (s0 & _ & E); discriminate E.
    + split_and!; split; try done; try (intros [? ?]; done);
        try (intros [? | [? ?]]; done);
        intros (s0 & _ & E); discriminate E.
  - split_and!; split; try done; try (intros [? ?]; done);
      try (intros _; by left); intros (s0 & E & _); discriminate E.
Qed.
